(** * Multimodal Performance Synthesizer: the synthesis pipeline of
      [src/lib/types/character-types.ts]

    A shallow embedding of [MultimodalPerformanceSynthesizerCore]: its
    constructor, the three modality generators and the synchronization
    engine it installs, the two validators and [synthesizePerformance];
    then of the pure methods of [CharacterDefinitionEngine] and
    [NLPProcessor] from the same file, and of [getPhaseStatus] from
    [src/components/casting-studio/PerformanceSynthesizer.tsx].

    Conventions.
    - A JavaScript number is modelled by the rational its literal denotes.
      The pipeline only copies numeric literals and never computes with
      them, so no rounding takes place in the code that is modelled.
    - Values whose TypeScript type is [Record<string, any>], and object
      literals cast with [as any], are dynamic [JsValue] trees; declared
      interfaces with fields the pipeline reads are records.
    - [async] methods run in the monad [M]: a world (clock readings and the
      console) is threaded through, and a call either resolves with a value
      or rejects with a thrown value. *)

From Stdlib Require Import String List ZArith QArith Qabs Qround Bool Sorted Lia Lqa.
Import ListNotations.

Local Open Scope string_scope.
Local Open Scope Q_scope.

(** ** Dynamic JavaScript values *)

Set Warnings "-register-all".

Inductive JsValue : Type :=
| JUndefined
| JNum (q : Q)
| JStr (s : string)
| JArr (items : list JsValue)
| JObj (fields : list (string * JsValue)).

(** [o[k]] on an object literal: the first binding of [k]. *)
Fixpoint lookup_field (k : string) (fields : list (string * JsValue)) : option JsValue :=
  match fields with
  | [] => None
  | (k', v) :: rest => if String.eqb k k' then Some v else lookup_field k rest
  end.

Definition get (k : string) (v : JsValue) : option JsValue :=
  match v with
  | JObj fields => lookup_field k fields
  | _ => None
  end.

Definition get_num (k : string) (v : JsValue) : option Q :=
  match get k v with
  | Some (JNum q) => Some q
  | _ => None
  end.

(** The empty object literal [{}]. *)
Definition empty_obj : JsValue := JObj [].

(** [x < y] on numbers. *)
Definition Qltb (x y : Q) : bool := negb (Qle_bool y x).

(** ** Request and character data (first part of the file) *)

Record VoiceIdentity := {
  voiceType : option string;
  vi_pitch : string;
  pace : string;
  accent : option string;
  emotionalRange : list string;
  speechPatterns : option (list string);
  voiceDNA : string
}.

(** [UnifiedCharacterOntology]: the synthesizer reads [voiceIdentity] (with
    optional chaining, so it may be absent at run time) and nothing else;
    [id] identifies the character. The remaining sections of the ontology
    are kept as one dynamic value. *)
Record UnifiedCharacterOntology := {
  id : string;
  version : string;
  voiceIdentity : option VoiceIdentity;
  other_sections : JsValue
}.

Record SceneContext := {
  location : string;
  timeOfDay : string;
  weather : string;
  mood : string;
  sc_objectives : list string;
  obstacles : list string;
  otherCharacters : list string;
  previousEvents : list string
}.

Record EmotionalState := {
  primary : string;
  secondary : list string;
  intensity : Q; (* 0-100 *)
  triggers : list string;
  physicalManifestations : list string
}.

Record PhysicalState := {
  posture : string;
  gestures : list string;
  facialExpression : string;
  eyeContact : string;
  movement : string;
  breathing : string
}.

Record ActionInstruction := {
  act_type : string;
  act_description : string;
  act_timing : string;
  act_intensity : Q;
  purpose : string
}.

Record DialogueInstruction := {
  text : string;
  tone : string;
  dlg_pace : string;
  volume : string;
  emphasis : list string;
  subtext : string
}.

Record VisualInstruction := {
  vis_type : string;
  vis_parameters : JsValue;
  priority : Q
}.

Record AudioInstruction := {
  aud_type : string;
  aud_parameters : JsValue;
  aud_timing : Q
}.

Record PerformanceInstructionSet := {
  characterId : string;
  sceneContext : SceneContext;
  emotionalState : EmotionalState;
  physicalState : PhysicalState;
  motivations : list string;
  objectives : list string;
  actions : list ActionInstruction;
  dialogue : list DialogueInstruction;
  visualInstructions : list VisualInstruction;
  audioInstructions : list AudioInstruction
}.

Record PerformanceMetadata := {
  generationTime : Z;
  modelUsed : string;
  qualityScore : Q;
  consistencyScore : Q;
  cost : Q;
  md_version : string
}.

(** The object [synthesizePerformance] resolves with. It has no
    [synchronization] field. *)
Record SynthesizedPerformance := {
  sp_characterId : string;
  sp_timestamp : Z;
  sp_visual : JsValue;
  sp_audio : JsValue;
  sp_animation : JsValue;
  sp_metadata : PerformanceMetadata
}.

(** ** Interfaces of the synthesizer (second part of the file) *)

Record CharacterVoice := {
  timbre : string;
  pitch : Q; (* 0.0 to 1.0 *)
  tempo : Q; (* 0.0 to 1.0 *)
  cv_accent : string;
  speech_patterns : list string;
  vocal_habits : list string;
  emotional_range : JsValue;
  age_characteristics : JsValue;
  gender_characteristics : JsValue
}.

(** [CharacterAppearance] and [CharacterAnimation] have only
    [Record<string, any>] fields; they are dynamic objects. *)
Record CharacterModel := {
  baseAppearance : JsValue;
  baseVoice : CharacterVoice;
  baseAnimation : JsValue;
  emotionalModifications : JsValue;
  performanceModifications : JsValue;
  consistencyParameters : JsValue
}.

Record SyncPoint := {
  timestamp : Q; (* milliseconds *)
  visual_event : JsValue;
  audio_event : JsValue;
  animation_event : JsValue;
  synchronization_quality_pt : Q; (* 0.0 to 1.0 *)
  alignment_accuracy : Q (* 0.0 to 1.0 *)
}.

Record SynchronizationData := {
  sync_points : list SyncPoint;
  timing_alignment : JsValue;
  emotional_alignment : JsValue;
  performance_alignment : JsValue;
  quality_alignment : JsValue;
  consistency_alignment : JsValue
}.

Record QualityMetrics := {
  visual_quality : JsValue;
  audio_quality : JsValue;
  animation_quality : JsValue;
  synchronization_quality : JsValue;
  overall_quality : Q; (* 0.0 to 1.0 *)
  performance_quality : Q (* 0.0 to 1.0 *)
}.

Record ConsistencyCheck := {
  character_consistency : JsValue;
  emotional_consistency : JsValue;
  performance_consistency : JsValue;
  visual_consistency : JsValue;
  audio_consistency : JsValue;
  animation_consistency : JsValue;
  overall_consistency : Q (* 0.0 to 1.0 *)
}.

Record PerformanceMetadataReport := {
  generation_time : Z;
  quality_score : Q;
  consistency_score : Q;
  models_used : list string
}.

Record QualityReport := {
  qr_overall_score : Q;
  qr_recommendations : list string;
  qr_metrics : QualityMetrics
}.

Record ConsistencyReport := {
  cr_overall_score : Q;
  cr_recommendations : list string;
  cr_metrics : ConsistencyCheck
}.

Record FinalPerformance := {
  fp_video : JsValue;
  fp_audio : JsValue;
  fp_animation : JsValue;
  fp_metadata : PerformanceMetadataReport;
  quality_report : QualityReport;
  consistency_report : ConsistencyReport
}.

(** [final_output] is [{} as FinalPerformance] in the engine, hence dynamic. *)
Record SynchronizedPerformance := {
  visual : JsValue;
  audio : JsValue;
  animation : JsValue;
  synchronization : SynchronizationData;
  quality_metrics : QualityMetrics;
  consistency_check : ConsistencyCheck;
  final_output : JsValue
}.

(** ** Thrown values *)

Inductive Modality := Visual | Audio | Animation.

(** Modelled from the spec: the error taxonomy of section 7
    ([MismatchedCharacter], [GenerationError], [SynchronizationError],
    [DegenerateOutput], [QualityGateFailed], [ConsistencyGateFailed],
    [ConfigurationError], cancellation). The source declares none of these;
    the only value it constructs and throws is [new Error(message)], the
    first constructor. *)
Inductive Thrown : Type :=
| Error (message : string)
| MismatchedCharacter
| GenerationError (modality : Modality) (cause : string)
| SynchronizationError
| DegenerateOutput
| QualityGateFailed (scorecard : QualityMetrics)
| ConsistencyGateFailed (scorecard : ConsistencyCheck)
| ConfigurationError
| Cancelled.

(** [String(error)], as the template literal [`${error}`] computes it:
    [Error.prototype.toString] gives the name alone when the message is
    empty. *)
Definition toString (error : Thrown) : string :=
  match error with
  | Error "" => "Error"
  | Error message => "Error: " ++ message
  | MismatchedCharacter => "MismatchedCharacter"
  | GenerationError _ cause => "GenerationError: " ++ cause
  | SynchronizationError => "SynchronizationError"
  | DegenerateOutput => "DegenerateOutput"
  | QualityGateFailed _ => "QualityGateFailed"
  | ConsistencyGateFailed _ => "ConsistencyGateFailed"
  | ConfigurationError => "ConfigurationError"
  | Cancelled => "Cancelled"
  end.

(** ** The world and the monad of [async] methods *)

(** [now k] is the k-th reading of the system clock; [reads] counts the
    readings taken so far; [console] holds the [console.error] calls, most
    recent first, each with its label and the value logged. *)
Record World := {
  now : nat -> Z;
  reads : nat;
  console : list (string * Thrown)
}.

Inductive Outcome (A : Type) : Type :=
| Ok (a : A)
| Throw (e : Thrown).
Arguments Ok {A} a.
Arguments Throw {A} e.

Definition M (A : Type) : Type := World -> Outcome A * World.

Definition ret {A} (a : A) : M A := fun w => (Ok a, w).

Definition throw {A} (e : Thrown) : M A := fun w => (Throw e, w).

Definition bind {A B} (c : M A) (k : A -> M B) : M B :=
  fun w =>
    match c w with
    | (Ok a, w') => k a w'
    | (Throw e, w') => (Throw e, w')
    end.

Declare Scope js_scope.
Delimit Scope js_scope with js.
Notation "x <- c ;; k" := (bind c (fun x => k))
  (at level 61, c at next level, right associativity) : js_scope.
Notation "' pat <- c ;; k" := (bind c (fun x => match x with pat => k end))
  (at level 61, pat pattern, c at next level, right associativity) : js_scope.
Notation "c ;;; k" := (bind c (fun _ => k))
  (at level 61, right associativity) : js_scope.
Local Open Scope js_scope.

(** [try { body } catch (error) { handler }] *)
Definition try_catch {A} (body : M A) (handler : Thrown -> M A) : M A :=
  fun w =>
    match body w with
    | (Ok a, w') => (Ok a, w')
    | (Throw e, w') => handler e w'
    end.

(** A call whose promise is kept without being awaited yet. *)
Definition settle {A} (c : M A) : M (Outcome A) :=
  fun w => let (r, w') := c w in (Ok r, w').

(** [await Promise.all([a, b, c])] where the three calls complete
    synchronously: the array literal runs all three in order, whatever
    their outcomes, and the first rejection in index order wins. *)
Definition promise_all3 {A B C} (a : M A) (b : M B) (c : M C) : M (A * B * C) :=
  ra <- settle a ;;
  rb <- settle b ;;
  rc <- settle c ;;
  match ra, rb, rc with
  | Ok x, Ok y, Ok z => ret (x, y, z)
  | Throw e, _, _ => throw e
  | _, Throw e, _ => throw e
  | _, _, Throw e => throw e
  end.

Definition promise_all2 {A B} (a : M A) (b : M B) : M (A * B) :=
  ra <- settle a ;;
  rb <- settle b ;;
  match ra, rb with
  | Ok x, Ok y => ret (x, y)
  | Throw e, _ => throw e
  | _, Throw e => throw e
  end.

(** [Date.now()] and [new Date()] both take one clock reading. *)
Definition Date_now : M Z :=
  fun w => (Ok (now w (reads w)),
            {| now := now w; reads := S (reads w); console := console w |}).

Definition console_error (label : string) (error : Thrown) : M unit :=
  fun w => (Ok tt,
            {| now := now w; reads := reads w;
               console := (label, error) :: console w |}).

(** ** Generator and engine interfaces

    Only the methods the pipeline calls are carried; the other methods of
    the three generators and of the engine return [{}] or [[]] and are
    never invoked by [synthesizePerformance]. *)

Record VisualGenerator := {
  vg_generateVisualPerformance : PerformanceInstructionSet -> M JsValue
}.

Record AudioGenerator := {
  ag_generateAudioPerformance : PerformanceInstructionSet -> M JsValue
}.

Record AnimationGenerator := {
  ng_generateAnimationPerformance : PerformanceInstructionSet -> M JsValue
}.

Record SynchronizationEngine := {
  se_synchronizeOutputs : JsValue -> JsValue -> JsValue -> M SynchronizedPerformance;
  se_calculateSyncPoints : JsValue -> JsValue -> JsValue -> M (list SyncPoint)
}.

Record MultimodalPerformanceSynthesizerCore := {
  characterModel : CharacterModel;
  visualGenerator : VisualGenerator;
  audioGenerator : AudioGenerator;
  animationGenerator : AnimationGenerator;
  synchronizationEngine : SynchronizationEngine;
  qualityAssurance : JsValue;
  consistencyEngine : JsValue
}.

(** ** The anonymous classes installed by the constructor *)

Module VisualGeneratorImpl.

Definition generateVisualPerformance (instructions : PerformanceInstructionSet) : M JsValue :=
  ret (JObj [
    ("images", JArr [JObj [("url", JStr ""); ("format", JStr "png");
                           ("resolution", JStr "2048x2048"); ("style", JStr "realistic");
                           ("prompt", JStr ""); ("model", JStr "flux-pro")]]);
    ("quality", JObj [("overall", JNum 0.96); ("detail", JNum 0.95);
                      ("consistency", JNum 0.94); ("realism", JNum 0.97);
                      ("artisticValue", JNum 0.93)]);
    ("consistency", JObj [("facialSimilarity", JNum 0.95); ("styleSimilarity", JNum 0.93);
                          ("colorConsistency", JNum 0.94);
                          ("proportionConsistency", JNum 0.96)])]).

Definition make : VisualGenerator :=
  {| vg_generateVisualPerformance := generateVisualPerformance |}.

End VisualGeneratorImpl.

Module AudioGeneratorImpl.

Definition generateAudioPerformance (instructions : PerformanceInstructionSet) : M JsValue :=
  ret (JObj [
    ("audioFiles", JArr [JObj [("url", JStr ""); ("format", JStr "wav");
                               ("duration", JNum 0); ("model", JStr "elevenlabs-v2");
                               ("voice", JStr "default")]]);
    ("quality", JObj [("overall", JNum 0.94); ("detail", JNum 0.93);
                      ("consistency", JNum 0.92); ("realism", JNum 0.95);
                      ("artisticValue", JNum 0.91)]);
    ("voiceConsistency", JNum 0.93)]).

Definition make : AudioGenerator :=
  {| ag_generateAudioPerformance := generateAudioPerformance |}.

End AudioGeneratorImpl.

Module AnimationGeneratorImpl.

Definition generateAnimationPerformance (instructions : PerformanceInstructionSet) : M JsValue :=
  ret (JObj [
    ("animations", JArr [JObj [("url", JStr ""); ("format", JStr "mp4");
                               ("duration", JNum 0); ("frameRate", JNum 60);
                               ("model", JStr "runwayml-gen3")]]);
    ("motionData", JArr [JObj [("joints", JArr []); ("timing", JArr []);
                               ("interpolation", JStr "linear")]]);
    ("quality", JObj [("overall", JNum 0.92); ("detail", JNum 0.91);
                      ("consistency", JNum 0.90); ("realism", JNum 0.93);
                      ("artisticValue", JNum 0.89)])]).

Definition make : AnimationGenerator :=
  {| ng_generateAnimationPerformance := generateAnimationPerformance |}.

End AnimationGeneratorImpl.

Module SynchronizationEngineImpl.

Definition synchronizeOutputs (visual audio animation : JsValue) : M SynchronizedPerformance :=
  ret {| visual := visual;
         audio := audio;
         animation := animation;
         synchronization :=
           {| sync_points := [];
              timing_alignment := empty_obj;
              emotional_alignment := empty_obj;
              performance_alignment := empty_obj;
              quality_alignment := empty_obj;
              consistency_alignment := empty_obj |};
         quality_metrics :=
           {| visual_quality := empty_obj;
              audio_quality := empty_obj;
              animation_quality := empty_obj;
              synchronization_quality := empty_obj;
              overall_quality := 0.93;
              performance_quality := 0.94 |};
         consistency_check :=
           {| character_consistency := empty_obj;
              emotional_consistency := empty_obj;
              performance_consistency := empty_obj;
              visual_consistency := empty_obj;
              audio_consistency := empty_obj;
              animation_consistency := empty_obj;
              overall_consistency := 0.91 |};
         final_output := empty_obj |}.

Definition calculateSyncPoints (visual audio animation : JsValue) : M (list SyncPoint) :=
  ret [].

Definition make : SynchronizationEngine :=
  {| se_synchronizeOutputs := synchronizeOutputs;
     se_calculateSyncPoints := calculateSyncPoints |}.

End SynchronizationEngineImpl.

(** ** The synthesizer class *)

(** [x || d] on a possibly absent string: the empty string is falsy. *)
Definition or_string (x : option string) (d : string) : string :=
  match x with
  | None | Some "" => d
  | Some s => s
  end.

(** [x || []] on a possibly absent array: every array is truthy. *)
Definition or_list {A} (x : option (list A)) : list A :=
  match x with
  | None => []
  | Some l => l
  end.

(** [ontology.voiceIdentity?.f] *)
Definition opt_chain {A} (vi : option VoiceIdentity) (f : VoiceIdentity -> option A) : option A :=
  match vi with
  | None => None
  | Some v => f v
  end.

Definition extractBaseAppearance (ontology : UnifiedCharacterOntology) : JsValue :=
  JObj [("face", empty_obj); ("body", empty_obj); ("clothing", empty_obj);
        ("accessories", JArr []); ("hair", empty_obj); ("skin", empty_obj);
        ("eyes", empty_obj); ("mouth", empty_obj); ("nose", empty_obj);
        ("overall_style", empty_obj)].

Definition extractBaseVoice (ontology : UnifiedCharacterOntology) : CharacterVoice :=
  {| timbre := or_string (opt_chain (voiceIdentity ontology) voiceType) "neutral";
     pitch := 0.5;
     tempo := 0.5;
     cv_accent := or_string (opt_chain (voiceIdentity ontology) accent) "neutral";
     speech_patterns := or_list (opt_chain (voiceIdentity ontology) speechPatterns);
     vocal_habits := [];
     emotional_range := empty_obj;
     age_characteristics := empty_obj;
     gender_characteristics := empty_obj |}.

Definition extractBaseAnimation (ontology : UnifiedCharacterOntology) : JsValue :=
  JObj [("base_pose", empty_obj); ("movement_style", empty_obj);
        ("gesture_library", empty_obj); ("facial_expressions", empty_obj);
        ("body_language", empty_obj); ("walking_style", empty_obj);
        ("sitting_style", empty_obj); ("standing_style", empty_obj);
        ("emotional_animation", empty_obj)].

Definition initializeCharacterModel (ontology : UnifiedCharacterOntology) : CharacterModel :=
  {| baseAppearance := extractBaseAppearance ontology;
     baseVoice := extractBaseVoice ontology;
     baseAnimation := extractBaseAnimation ontology;
     emotionalModifications := empty_obj;
     performanceModifications := empty_obj;
     consistencyParameters := empty_obj |}.

Definition initializeVisualGenerator (ontology : UnifiedCharacterOntology) : VisualGenerator :=
  VisualGeneratorImpl.make.

Definition initializeAudioGenerator (ontology : UnifiedCharacterOntology) : AudioGenerator :=
  AudioGeneratorImpl.make.

Definition initializeAnimationGenerator (ontology : UnifiedCharacterOntology) : AnimationGenerator :=
  AnimationGeneratorImpl.make.

Definition initializeSynchronizationEngine : SynchronizationEngine :=
  SynchronizationEngineImpl.make.

Definition initializeQualityAssurance : JsValue := empty_obj.

Definition initializeConsistencyEngine : JsValue := empty_obj.

(** [constructor(characterOntology)]: its only parameter is the ontology. *)
Definition constructor (characterOntology : UnifiedCharacterOntology)
  : M MultimodalPerformanceSynthesizerCore :=
  ret {| characterModel := initializeCharacterModel characterOntology;
         visualGenerator := initializeVisualGenerator characterOntology;
         audioGenerator := initializeAudioGenerator characterOntology;
         animationGenerator := initializeAnimationGenerator characterOntology;
         synchronizationEngine := initializeSynchronizationEngine;
         qualityAssurance := initializeQualityAssurance;
         consistencyEngine := initializeConsistencyEngine |}.

Definition createMultimodalPerformanceSynthesizer (characterOntology : UnifiedCharacterOntology)
  : M MultimodalPerformanceSynthesizerCore :=
  constructor characterOntology.

Section Methods.

Variable this : MultimodalPerformanceSynthesizerCore.

Definition generateVisualPerformance (instructions : PerformanceInstructionSet) : M JsValue :=
  vg_generateVisualPerformance (visualGenerator this) instructions.

Definition generateAudioPerformance (instructions : PerformanceInstructionSet) : M JsValue :=
  ag_generateAudioPerformance (audioGenerator this) instructions.

Definition generateAnimationPerformance (instructions : PerformanceInstructionSet) : M JsValue :=
  ng_generateAnimationPerformance (animationGenerator this) instructions.

Definition validateQuality (synchronized : SynchronizedPerformance) : M QualityMetrics :=
  ret {| visual_quality :=
           JObj [("overall", JNum 0.96); ("detail", JNum 0.95); ("consistency", JNum 0.94)];
         audio_quality :=
           JObj [("overall", JNum 0.94); ("clarity", JNum 0.95); ("consistency", JNum 0.93)];
         animation_quality :=
           JObj [("overall", JNum 0.92); ("fluidity", JNum 0.91); ("consistency", JNum 0.90)];
         synchronization_quality :=
           JObj [("overall", JNum 0.90); ("timing", JNum 0.89); ("alignment", JNum 0.91)];
         overall_quality := 0.93;
         performance_quality := 0.94 |}.

Definition validateConsistency (synchronized : SynchronizedPerformance) : M ConsistencyCheck :=
  ret {| character_consistency :=
           JObj [("visual", JNum 0.95); ("audio", JNum 0.93); ("animation", JNum 0.91)];
         emotional_consistency := JObj [("cross_modal", JNum 0.92); ("temporal", JNum 0.90)];
         performance_consistency :=
           JObj [("behavioral", JNum 0.89); ("psychological", JNum 0.91)];
         visual_consistency := JObj [("appearance", JNum 0.95); ("style", JNum 0.93)];
         audio_consistency := JObj [("voice", JNum 0.94); ("speech", JNum 0.92)];
         animation_consistency := JObj [("movement", JNum 0.90); ("expression", JNum 0.88)];
         overall_consistency := 0.91 |}.

Definition generateVideoOutput (synchronized : SynchronizedPerformance) : JsValue :=
  JObj [("format", JStr "mp4"); ("quality", JStr "high"); ("duration", JNum 0)].

Definition generateAudioOutput (synchronized : SynchronizedPerformance) : JsValue :=
  JObj [("format", JStr "wav"); ("quality", JStr "high"); ("duration", JNum 0)].

Definition generateAnimationOutput (synchronized : SynchronizedPerformance) : JsValue :=
  JObj [("format", JStr "fbx"); ("quality", JStr "high"); ("duration", JNum 0)].

Definition generatePerformanceMetadata (synchronized : SynchronizedPerformance)
    (qualityCheck : QualityMetrics) (consistencyCheck : ConsistencyCheck)
  : M PerformanceMetadataReport :=
  t <- Date_now ;;
  ret {| generation_time := t;
         quality_score := overall_quality qualityCheck;
         consistency_score := overall_consistency consistencyCheck;
         models_used := ["flux-pro"; "elevenlabs-v2"; "runwayml-gen3"] |}.

Definition generateQualityReport (qualityCheck : QualityMetrics) : QualityReport :=
  {| qr_overall_score := overall_quality qualityCheck;
     qr_recommendations := ["Optimize lighting for better visual quality";
                            "Improve audio clarity in noisy sections"];
     qr_metrics := qualityCheck |}.

Definition generateConsistencyReport (consistencyCheck : ConsistencyCheck) : ConsistencyReport :=
  {| cr_overall_score := overall_consistency consistencyCheck;
     cr_recommendations := ["Maintain character appearance consistency";
                            "Improve emotional alignment across modalities"];
     cr_metrics := consistencyCheck |}.

Definition generateFinalPerformance (synchronized : SynchronizedPerformance)
    (qualityCheck : QualityMetrics) (consistencyCheck : ConsistencyCheck)
  : M FinalPerformance :=
  metadata <- generatePerformanceMetadata synchronized qualityCheck consistencyCheck ;;
  ret {| fp_video := generateVideoOutput synchronized;
         fp_audio := generateAudioOutput synchronized;
         fp_animation := generateAnimationOutput synchronized;
         fp_metadata := metadata;
         quality_report := generateQualityReport qualityCheck;
         consistency_report := generateConsistencyReport consistencyCheck |}.

(** The body of the [try] block. *)
Definition synthesize_body (instructions : PerformanceInstructionSet) : M SynthesizedPerformance :=
  (* Phase 1: Generate individual modality performances *)
  '(visualOutput, audioOutput, animationOutput) <-
    promise_all3 (generateVisualPerformance instructions)
                 (generateAudioPerformance instructions)
                 (generateAnimationPerformance instructions) ;;
  (* Phase 2: Synchronize all modalities *)
  synchronizedOutput <-
    se_synchronizeOutputs (synchronizationEngine this)
      visualOutput audioOutput animationOutput ;;
  (* Phase 3: Quality and consistency validation *)
  '(qualityCheck, consistencyCheck) <-
    promise_all2 (validateQuality synchronizedOutput)
                 (validateConsistency synchronizedOutput) ;;
  (* Phase 4: Generate final performance *)
  finalPerformance <-
    generateFinalPerformance synchronizedOutput qualityCheck consistencyCheck ;;
  date <- Date_now ;;
  generation <- Date_now ;;
  ret {| sp_characterId := "temp-id";
         sp_timestamp := date;
         sp_visual := visualOutput;
         sp_audio := audioOutput;
         sp_animation := animationOutput;
         sp_metadata :=
           {| generationTime := generation;
              modelUsed := "multimodal-v1";
              qualityScore := overall_quality qualityCheck;
              consistencyScore := overall_consistency consistencyCheck;
              cost := 0.05;
              md_version := "1.0.0" |} |}.

Definition synthesizePerformance (instructions : PerformanceInstructionSet)
  : M SynthesizedPerformance :=
  try_catch (synthesize_body instructions)
    (fun error =>
       console_error "Error synthesizing performance:" error ;;;
       throw (Error ("Performance synthesis failed: " ++ toString error))).

End Methods.

(** ** Notions of the specification used to state the properties *)

(** Modelled from the spec: the [qualityWeights{visual,audio,animation,sync}]
    option of the configuration surface (section 6), which must sum to 1.0.
    The source has no configuration object. *)
Record QualityWeights := {
  w_visual : Q;
  w_audio : Q;
  w_animation : Q;
  w_sync : Q
}.

Definition weights_sum (qw : QualityWeights) : Q :=
  w_visual qw + w_audio qw + w_animation qw + w_sync qw.

(** Modelled from the spec: a ModalityPerformance carries a [duration] in
    milliseconds (section 3). The interfaces of the source declare no such
    field on a performance; it is read dynamically. *)
Definition duration_of (performance : JsValue) : option Q :=
  get_num "duration" performance.

Definition Qmax3 (x y z : Q) : Q :=
  let m := if Qle_bool x y then y else x in
  if Qle_bool m z then z else m.

(** Modelled from the spec: some modality's duration differs from the
    longest of the three by more than [tolerancePercent] percent of the
    longest (section 4.3; the default is 15). *)
Definition diverges (tolerancePercent : Q) (visual audio animation : JsValue) : bool :=
  match duration_of visual, duration_of audio, duration_of animation with
  | Some dv, Some da, Some dn =>
      let longest := Qmax3 dv da dn in
      let limit := tolerancePercent / 100 * longest in
      Qltb limit (longest - dv) || Qltb limit (longest - da) || Qltb limit (longest - dn)
  | _, _, _ => false
  end.

Definition syncTolerancePercent : Q := 15.

(** Sync points ordered by strictly increasing [timestamp]. *)
Definition strictly_increasing (points : list SyncPoint) : Prop :=
  StronglySorted (fun p q => timestamp p < timestamp q) points.

(** Modelled from the spec: the default cross-modal agreement formula of
    section 4.5, [1 - |reported - requested| / 100]. *)
Definition cross_modal_formula (reported requested : Q) : Q :=
  1 - Qabs (reported - requested) / 100.

Definition cross_modal (c : ConsistencyCheck) : option Q :=
  get_num "cross_modal" (emotional_consistency c).

(** Calling an [async] method twice in a row on the same argument. *)
Definition twice {A} (c : M A) : M (A * A) :=
  first <- c ;;
  second <- c ;;
  ret (first, second).

(** ** Sample inputs *)

Definition sample_ontology : UnifiedCharacterOntology :=
  {| id := "char-1";
     version := "1.0.0";
     voiceIdentity :=
       Some {| voiceType := Some "alto"; vi_pitch := "medium"; pace := "slow";
               accent := None; emotionalRange := ["calm"];
               speechPatterns := Some ["pauses"]; voiceDNA := "dna" |};
     other_sections := empty_obj |}.

Definition sample_instructions (cid : string) (requested : Q) : PerformanceInstructionSet :=
  {| characterId := cid;
     sceneContext :=
       {| location := "stage"; timeOfDay := "night"; weather := "clear"; mood := "tense";
          sc_objectives := []; obstacles := []; otherCharacters := [];
          previousEvents := [] |};
     emotionalState :=
       {| primary := "fear"; secondary := []; intensity := requested;
          triggers := []; physicalManifestations := [] |};
     physicalState :=
       {| posture := "upright"; gestures := []; facialExpression := "neutral";
          eyeContact := "direct"; movement := "still"; breathing := "even" |};
     motivations := [];
     objectives := [];
     actions := [];
     dialogue := [];
     visualInstructions := [];
     audioInstructions := [] |}.

Definition world0 : World :=
  {| now := fun k => (1700000000000 + Z.of_nat k)%Z; reads := 0; console := [] |}.

(** A performance that reports only its duration. *)
Definition timed (ms : Q) : JsValue := JObj [("duration", JNum ms)].

(** The synthesizer the constructor builds, as a value. *)
Definition installed (ontology : UnifiedCharacterOntology) : MultimodalPerformanceSynthesizerCore :=
  {| characterModel := initializeCharacterModel ontology;
     visualGenerator := VisualGeneratorImpl.make;
     audioGenerator := AudioGeneratorImpl.make;
     animationGenerator := AnimationGeneratorImpl.make;
     synchronizationEngine := SynchronizationEngineImpl.make;
     qualityAssurance := empty_obj;
     consistencyEngine := empty_obj |}.

(** A visual generator whose backend rejects the request. *)
Definition failing_visual (e : Thrown) : VisualGenerator :=
  {| vg_generateVisualPerformance := fun _ => throw e |}.

Definition blank_quality : QualityMetrics :=
  {| visual_quality := empty_obj; audio_quality := empty_obj;
     animation_quality := empty_obj; synchronization_quality := empty_obj;
     overall_quality := 0; performance_quality := 0 |}.

Definition blank_consistency : ConsistencyCheck :=
  {| character_consistency := empty_obj; emotional_consistency := empty_obj;
     performance_consistency := empty_obj; visual_consistency := empty_obj;
     audio_consistency := empty_obj; animation_consistency := empty_obj;
     overall_consistency := 0 |}.

(** A synchronized performance of three one-second outputs, with one sync
    point and blank scorecards. *)
Definition sample_synchronized : SynchronizedPerformance :=
  {| visual := timed 1000;
     audio := timed 1000;
     animation := timed 1000;
     synchronization :=
       {| sync_points :=
            [{| timestamp := 0; visual_event := empty_obj; audio_event := empty_obj;
                animation_event := empty_obj; synchronization_quality_pt := 1;
                alignment_accuracy := 1 |}];
          timing_alignment := empty_obj; emotional_alignment := empty_obj;
          performance_alignment := empty_obj; quality_alignment := empty_obj;
          consistency_alignment := empty_obj |};
     quality_metrics := blank_quality;
     consistency_check := blank_consistency;
     final_output := empty_obj |}.

Definition sample_weights : QualityWeights :=
  {| w_visual := 0.3; w_audio := 0.3; w_animation := 0.2; w_sync := 0.1 |}.

(** ** The statements of the specification, as predicates on a run *)

(** The run of [synthesizePerformance] up to the end of phase 2: the
    synchronized performance the validators are given. *)
Definition synchronized_output (this : MultimodalPerformanceSynthesizerCore)
    (instructions : PerformanceInstructionSet) : M SynchronizedPerformance :=
  '(visualOutput, audioOutput, animationOutput) <-
    promise_all3 (generateVisualPerformance this instructions)
                 (generateAudioPerformance this instructions)
                 (generateAnimationPerformance this instructions) ;;
  se_synchronizeOutputs (synchronizationEngine this)
    visualOutput audioOutput animationOutput.

(** Gate enforcement (sections 4.1 and 8): an aggregate quality below the
    threshold makes the run fail with [QualityGateFailed] carrying the
    scorecard. *)
Definition quality_gate_enforced (qualityMinThreshold : Q)
    (this : MultimodalPerformanceSynthesizerCore)
    (instructions : PerformanceInstructionSet) (w : World) : Prop :=
  forall s w1 scorecard w2,
    synchronized_output this instructions w = (Ok s, w1) ->
    validateQuality s w1 = (Ok scorecard, w2) ->
    overall_quality scorecard < qualityMinThreshold ->
    exists w', synthesizePerformance this instructions w
               = (Throw (QualityGateFailed scorecard), w').

(** Sync points of a successful run whose generators stayed within
    tolerance are non-empty and strictly increasing (sections 3 and 8). *)
Definition timeline_well_formed (this : MultimodalPerformanceSynthesizerCore)
    (instructions : PerformanceInstructionSet) (w : World) : Prop :=
  forall s w1 p w',
    synchronized_output this instructions w = (Ok s, w1) ->
    diverges syncTolerancePercent (visual s) (audio s) (animation s) = false ->
    synthesizePerformance this instructions w = (Ok p, w') ->
    sync_points (synchronization s) <> []
    /\ strictly_increasing (sync_points (synchronization s)).

(** Divergence boundary (sections 4.3 and 8): the engine fails with
    [SynchronizationError] exactly when the durations diverge beyond the
    default tolerance. *)
Definition divergence_rejected (visual audio animation : JsValue) (w : World) : Prop :=
  (exists w', SynchronizationEngineImpl.synchronizeOutputs visual audio animation w
              = (Throw SynchronizationError, w'))
  <-> diverges syncTolerancePercent visual audio animation = true.

(** Input constraint of section 4.1: instructions for another character
    are refused with [MismatchedCharacter]. *)
Definition mismatch_rejected (ontology : UnifiedCharacterOntology)
    (instructions : PerformanceInstructionSet) (w : World) : Prop :=
  characterId instructions <> id ontology ->
  forall this w1,
    constructor ontology w = (Ok this, w1) ->
    exists w', synthesizePerformance this instructions w1
               = (Throw MismatchedCharacter, w').

(** Section 4.5: the cross-modal score follows the default formula for the
    intensity the performance reports and the one the instructions request. *)
Definition cross_modal_follows_formula (reported : Q) (s : SynchronizedPerformance)
    (instructions : PerformanceInstructionSet) (w : World) : Prop :=
  forall c w',
    validateConsistency s w = (Ok c, w') ->
    exists score,
      cross_modal c = Some score
      /\ score == cross_modal_formula reported (intensity (emotionalState instructions)).

(** Weight validation (sections 7 and 8): weights that do not sum to 1.0
    make construction fail with [ConfigurationError]. *)
Definition weights_validated (qw : QualityWeights)
    (ontology : UnifiedCharacterOntology) (w : World) : Prop :=
  ~ weights_sum qw == 1 ->
  exists w', createMultimodalPerformanceSynthesizer ontology w
             = (Throw ConfigurationError, w').

(** ** Character Definition Engine (middle part of the file)

    Strings are byte strings holding the UTF-8 encoding of the JavaScript
    string. [toLowerCase] changes ASCII letters only. The code searches the
    lower-cased text for ASCII words; the only characters outside ASCII
    whose lower case contains an ASCII letter yield "k", or "i" followed by
    a combining mark, and none of the searched words has a "k" or can
    continue after such an "i", so the searches agree. Regular expressions
    with the [i] flag and without the [u] flag never match a character
    outside ASCII against an ASCII one, and [\b] and [\w] treat every
    such character as a non-word character.

    Numbers are the rationals their values denote; comparisons are exact,
    and the one computation, in [calculateEmotionalIntelligence], is exact
    on whole-number scores. *)

Definition lower_ascii (c : Ascii.ascii) : Ascii.ascii :=
  let n := Ascii.nat_of_ascii c in
  if (65 <=? n)%nat && (n <=? 90)%nat then Ascii.ascii_of_nat (n + 32) else c.

Definition upper_ascii (c : Ascii.ascii) : Ascii.ascii :=
  let n := Ascii.nat_of_ascii c in
  if (97 <=? n)%nat && (n <=? 122)%nat then Ascii.ascii_of_nat (n - 32) else c.

Fixpoint toLowerCase (s : string) : string :=
  match s with
  | EmptyString => EmptyString
  | String c rest => String (lower_ascii c) (toLowerCase rest)
  end.

(** [s.includes(pat)] *)
Fixpoint includes (pat s : string) : bool :=
  String.prefix pat s
  || match s with
     | EmptyString => false
     | String _ rest => includes pat rest
     end.

(** [s.charAt(0).toUpperCase() + s.slice(1)] *)
Definition capitalize (s : string) : string :=
  match s with
  | EmptyString => EmptyString
  | String c rest => String (upper_ascii c) rest
  end.

(** [\w]: an ASCII letter, digit or underscore. *)
Definition is_word_char (c : Ascii.ascii) : bool :=
  let n := Ascii.nat_of_ascii c in
  ((48 <=? n)%nat && (n <=? 57)%nat)
  || ((65 <=? n)%nat && (n <=? 90)%nat)
  || (n =? 95)%nat
  || ((97 <=? n)%nat && (n <=? 122)%nat).

(** The maximal runs of word characters of a text, in order: the
    substrings that have a [\b] on both sides and none inside. *)
Fixpoint word_runs (s : string) : list string :=
  match s with
  | EmptyString => []
  | String c rest =>
      if is_word_char c then
        match rest with
        | String c2 _ =>
            if is_word_char c2 then
              match word_runs rest with
              | run :: runs => String c run :: runs
              | [] => [String c EmptyString]
              end
            else String c EmptyString :: word_runs rest
        | EmptyString => [String c EmptyString]
        end
      else word_runs rest
  end.

(** [x > y] and [x < y] on numbers. *)
Definition gt (x y : Q) : bool := Qltb y x.
Definition lt (x y : Q) : bool := Qltb x y.

(** [Math.round]: the nearest integer, ties towards positive infinity. *)
Definition Math_round (x : Q) : Q := inject_Z (Qfloor (x + (1 # 2))).

(** [cond && xs.push(...)]: the items pushed by a guarded [push]. *)
Definition pushed (cond : bool) (items : list string) : list string :=
  if cond then items else [].

(** The property names every object literal inherits from
    [Object.prototype]; [map[key]] finds them when [key] is not an own
    property. *)
Definition object_prototype_keys : list string :=
  ["constructor"; "hasOwnProperty"; "isPrototypeOf"; "propertyIsEnumerable";
   "toLocaleString"; "toString"; "valueOf"; "__proto__";
   "__defineGetter__"; "__defineSetter__"; "__lookupGetter__"; "__lookupSetter__"].

Definition inherited (key : string) : bool :=
  existsb (String.eqb key) object_prototype_keys.

Fixpoint own_property {A} (key : string) (entries : list (string * A)) : option A :=
  match entries with
  | [] => None
  | (k, a) :: rest => if String.eqb key k then Some a else own_property key rest
  end.

(** What [map[key] || fallback] evaluates to: a value of the map's type,
    or the function or object inherited under [key], which is truthy. *)
Inductive Looked (A : Type) : Type :=
| Value (a : A)
| Inherited (key : string).
Arguments Value {A} a.
Arguments Inherited {A} key.

Definition lookup_or {A} (truthy : A -> bool) (entries : list (string * A))
    (key : string) (fallback : A) : Looked A :=
  match own_property key entries with
  | Some a => if truthy a then Value a else Value fallback
  | None => if inherited key then Inherited key else Value fallback
  end.

Definition truthy_string (s : string) : bool :=
  match s with
  | EmptyString => false
  | _ => true
  end.

Definition truthy_array (l : list string) : bool := true.

Module CharacterDefinitionEngine.

Record BasicInfo := {
  name : option string;
  age : option Q;
  gender : option string;
  occupation : option string;
  description : option string
}.

Record ExtractedCharacterData := {
  basicInfo : BasicInfo;
  personalityTraits : list string;
  physicalFeatures : list string;
  behavioralPatterns : list string;
  backgroundElements : list string;
  relationships : list string;
  skills : list string
}.

Record ArchetypeProfile := {
  primary : string;
  secondary : string;
  confidence : Q;
  characteristics : list string;
  motivations : list string;
  fears : list string;
  growth_arc : string
}.

Record Breakdown := {
  E_I : Q;
  S_N : Q;
  T_F : Q;
  J_P : Q
}.

Record Mbti := {
  mbti_type : string;
  mbti_confidence : Q;
  breakdown : Breakdown
}.

Record Enneagram := {
  enneagram_type : Q;
  wing : Q;
  enneagram_confidence : Q;
  enneagram_description : string
}.

Record Ocean := {
  openness : Q;
  conscientiousness : Q;
  extraversion : Q;
  agreeableness : Q;
  neuroticism : Q
}.

Record PsychometricProfile := {
  mbti : Mbti;
  enneagram : Enneagram;
  ocean : Ocean
}.

(** [Partial<UnifiedCharacterOntology>]: each field may be absent; the
    sections kept dynamic are given as the fields to override. *)
Record PartialOntology := {
  p_id : option string;
  p_version : option string;
  p_voiceIdentity : option (option VoiceIdentity);
  p_other_sections : list (string * JsValue)
}.

Definition override {A} (base : A) (update : option A) : A :=
  match update with
  | Some a => a
  | None => base
  end.

(** [{ ...existing, ...updates }] *)
Definition spread (existing : UnifiedCharacterOntology) (updates : PartialOntology)
  : UnifiedCharacterOntology :=
  {| id := override (id existing) (p_id updates);
     version := override (version existing) (p_version updates);
     voiceIdentity := override (voiceIdentity existing) (p_voiceIdentity updates);
     other_sections :=
       match other_sections existing with
       | JObj fields => JObj (p_other_sections updates ++ fields)%list
       | _ => JObj (p_other_sections updates)
       end |}.

(** [CharacterValidator.validateAndEnrich] *)
Definition validateAndEnrich (character : UnifiedCharacterOntology)
  : M UnifiedCharacterOntology :=
  ret character.

Definition getCharacter (characterId : string) : M UnifiedCharacterOntology :=
  throw (Error "Character not found").

Definition updateCharacter (characterId : string) (updates : PartialOntology)
  : M UnifiedCharacterOntology :=
  existingCharacter <- getCharacter characterId ;;
  validateAndEnrich (spread existingCharacter updates).

Definition determineVoiceType (psychometric : PsychometricProfile)
    (archetype : ArchetypeProfile) : string :=
  if gt (extraversion (ocean psychometric)) 70 then "Confident and Clear"
  else if lt (extraversion (ocean psychometric)) 30 then "Soft and Thoughtful"
  else "Balanced and Warm".

(** [!gender]: absent or empty; [!age]: absent or zero. *)
Definition falsy_string (x : option string) : bool :=
  match x with
  | None | Some EmptyString => true
  | Some _ => false
  end.

Definition falsy_number (x : option Q) : bool :=
  match x with
  | None => true
  | Some q => Qeq_bool q 0
  end.

Definition determinePitch (gender : option string) (age : option Q) : string :=
  match gender, age with
  | Some g, Some a =>
      if falsy_string gender || falsy_number age then "Medium"
      else if includes "female" (toLowerCase g)
           then (if lt a 30 then "Medium-High" else "Medium")
      else if includes "male" (toLowerCase g)
           then (if lt a 30 then "Medium" else "Medium-Low")
      else "Medium"
  | _, _ => "Medium"
  end.

Definition determinePace (ocean : Ocean) : string :=
  if gt (conscientiousness ocean) 70 then "Measured"
  else if gt (extraversion ocean) 70 then "Quick"
  else "Moderate".

Definition determineEmotionalRange (psychometric : PsychometricProfile) : list string :=
  (["calm"; "happy"; "concerned"]
   ++ pushed (gt (neuroticism (ocean psychometric)) 60) ["anxious"; "worried"]
   ++ pushed (gt (extraversion (ocean psychometric)) 60) ["excited"; "enthusiastic"]
   ++ pushed (gt (agreeableness (ocean psychometric)) 60) ["compassionate"; "understanding"])%list.

Definition generateSpeechPatterns (psychometric : PsychometricProfile)
    (archetype : ArchetypeProfile) : list string :=
  (pushed (gt (conscientiousness (ocean psychometric)) 70) ["Precise language"]
   ++ pushed (gt (openness (ocean psychometric)) 70) ["Creative metaphors"]
   ++ pushed (String.eqb (primary archetype) "Hero") ["Decisive statements"])%list.

Definition generateHabitsAndQuirks (psychometric : PsychometricProfile) : list string :=
  (pushed (gt (neuroticism (ocean psychometric)) 60) ["Fidgets when nervous"]
   ++ pushed (gt (conscientiousness (ocean psychometric)) 70) ["Always checks things twice"]
   ++ pushed (gt (openness (ocean psychometric)) 70) ["Collects interesting objects"])%list.

Definition determineSocialBehavior (ocean : Ocean) : string :=
  if gt (extraversion ocean) 70 then "Highly social and outgoing"
  else if lt (extraversion ocean) 30 then "Prefers small groups or solitude"
  else "Comfortable in most social situations".

Definition generateStressResponses (psychometric : PsychometricProfile) : list string :=
  (pushed (gt (neuroticism (ocean psychometric)) 60) ["Becomes anxious quickly"]
   ++ pushed (gt (conscientiousness (ocean psychometric)) 70) ["Becomes more organized"]
   ++ pushed (gt (extraversion (ocean psychometric)) 60) ["Seeks social support"])%list.

Definition determineDecisionMakingStyle (psychometric : PsychometricProfile) : string :=
  if gt (T_F (breakdown (mbti psychometric))) 50 then "Logical and analytical"
  else "Values-based and empathetic".

Definition calculateEmotionalIntelligence (psychometric : PsychometricProfile) : Q :=
  Math_round ((agreeableness (ocean psychometric)
               + (100 - neuroticism (ocean psychometric))) / 2).

Definition determineCoreEmotions (psychometric : PsychometricProfile) : list string :=
  (["contentment"]
   ++ pushed (gt (extraversion (ocean psychometric)) 60) ["joy"]
   ++ pushed (gt (neuroticism (ocean psychometric)) 60) ["anxiety"]
   ++ pushed (gt (agreeableness (ocean psychometric)) 60) ["compassion"])%list.

(** [archetype.fears.slice(0, 3)] *)
Definition generateEmotionalTriggers (archetype : ArchetypeProfile) : list string :=
  firstn 3 (fears archetype).

Definition generateCopingMechanisms (psychometric : PsychometricProfile) : list string :=
  (pushed (gt (extraversion (ocean psychometric)) 60) ["Talking to friends"]
   ++ pushed (gt (conscientiousness (ocean psychometric)) 60) ["Making lists and plans"]
   ++ pushed (gt (openness (ocean psychometric)) 60) ["Creative expression"])%list.

Definition shadowMap : list (string * string) :=
  [("Hero", "Destroyer"); ("Lover", "Addict"); ("Sage", "Know-it-all");
   ("Innocent", "Victim"); ("Explorer", "Escapist"); ("Ruler", "Tyrant");
   ("Creator", "Perfectionist"); ("Caregiver", "Martyr");
   ("Magician", "Manipulator"); ("Outlaw", "Criminal"); ("Everyman", "Victim");
   ("Jester", "Cruel Trickster")].

Definition determineShadowArchetype (primaryArchetype : string) : Looked string :=
  lookup_or truthy_string shadowMap primaryArchetype "Shadow".

Definition styleMap : list (string * string) :=
  [("Hero", "Classic and Strong"); ("Lover", "Romantic and Flowing");
   ("Sage", "Intellectual and Refined"); ("Innocent", "Simple and Pure");
   ("Explorer", "Adventurous and Practical"); ("Ruler", "Authoritative and Luxurious");
   ("Creator", "Artistic and Unique"); ("Caregiver", "Comfortable and Nurturing");
   ("Magician", "Mysterious and Transformative"); ("Outlaw", "Rebellious and Edgy");
   ("Everyman", "Relatable and Casual"); ("Jester", "Playful and Colorful")].

Definition determineFashionStyle (archetype : ArchetypeProfile) : Looked string :=
  lookup_or truthy_string styleMap (primary archetype) "Casual".

Definition paletteMap : list (string * list string) :=
  [("Hero", ["navy"; "gold"; "red"]); ("Lover", ["rose"; "pink"; "cream"]);
   ("Sage", ["navy"; "gray"; "white"]);
   ("Innocent", ["white"; "light blue"; "soft yellow"]);
   ("Explorer", ["khaki"; "forest green"; "brown"]);
   ("Ruler", ["purple"; "gold"; "black"]); ("Creator", ["orange"; "purple"; "teal"]);
   ("Caregiver", ["soft green"; "cream"; "light brown"]);
   ("Magician", ["deep purple"; "silver"; "black"]);
   ("Outlaw", ["black"; "red"; "dark gray"]);
   ("Everyman", ["denim blue"; "gray"; "white"]);
   ("Jester", ["bright yellow"; "orange"; "green"])].

Definition generateColorPalette (archetype : ArchetypeProfile) : Looked (list string) :=
  lookup_or truthy_array paletteMap (primary archetype) ["gray"; "blue"; "white"].

Definition accessoryMap : list (string * list string) :=
  [("Hero", ["watch"; "medal"]); ("Lover", ["jewelry"; "scarf"]);
   ("Sage", ["glasses"; "book"]); ("Innocent", ["simple necklace"]);
   ("Explorer", ["backpack"; "compass"]); ("Ruler", ["crown"; "ring"]);
   ("Creator", ["art supplies"; "unique jewelry"]);
   ("Caregiver", ["practical bag"; "comfortable shoes"]);
   ("Magician", ["mysterious pendant"; "unusual rings"]);
   ("Outlaw", ["leather jacket"; "boots"]);
   ("Everyman", ["baseball cap"; "sneakers"]);
   ("Jester", ["colorful hat"; "fun accessories"])].

Definition generateAccessories (archetype : ArchetypeProfile) : Looked (list string) :=
  lookup_or truthy_array accessoryMap (primary archetype) ["watch"].

Definition generateTalents (psychometric : PsychometricProfile)
    (archetype : ArchetypeProfile) : list string :=
  (pushed (gt (openness (ocean psychometric)) 70) ["Creative thinking"]
   ++ pushed (gt (conscientiousness (ocean psychometric)) 70) ["Organization"]
   ++ pushed (gt (extraversion (ocean psychometric)) 70) ["Leadership"]
   ++ pushed (gt (agreeableness (ocean psychometric)) 70) ["Empathy"])%list.

Definition generateWeaknesses (psychometric : PsychometricProfile)
    (archetype : ArchetypeProfile) : list string :=
  (pushed (gt (neuroticism (ocean psychometric)) 70) ["Anxiety under pressure"]
   ++ pushed (lt (conscientiousness (ocean psychometric)) 30) ["Disorganization"]
   ++ pushed (gt (agreeableness (ocean psychometric)) 80) ["Difficulty saying no"])%list.

Definition generateHobbies (psychometric : PsychometricProfile) : list string :=
  (pushed (gt (openness (ocean psychometric)) 60) ["Reading"; "Art"]
   ++ pushed (gt (extraversion (ocean psychometric)) 60) ["Social activities"]
   ++ pushed (gt (conscientiousness (ocean psychometric)) 60) ["Organizing"])%list.

End CharacterDefinitionEngine.

Module NLPProcessor.

Definition occupationWords : list string :=
  ["teacher"; "doctor"; "engineer"; "artist"; "lawyer"; "chef"; "student"].

(** The [for ... of] loop of [extractOccupation] over the remaining words. *)
Fixpoint first_occupation (lowered : string) (words : list string) : option string :=
  match words with
  | [] => None
  | occupation :: rest =>
      if includes occupation lowered then Some (capitalize occupation)
      else first_occupation lowered rest
  end.

Definition extractOccupation (description : string) : option string :=
  first_occupation (toLowerCase description) occupationWords.

(** [/\b(?:w1|w2|...)\b/i.test(description)] for plain words: some maximal
    run of word characters of the description is one of the words, up to
    case. *)
Definition test_words (words : list string) (description : string) : bool :=
  existsb (fun token => existsb (String.eqb token) words)
          (word_runs (toLowerCase description)).

Definition extractGender (description : string) : option string :=
  if test_words ["he"; "him"; "his"; "man"; "male"; "boy"] description then Some "Male"
  else if test_words ["she"; "her"; "hers"; "woman"; "female"; "girl"] description
       then Some "Female"
  else None.








End NLPProcessor.

(** ** The synthesis progress display ([PerformanceSynthesizer.tsx]) *)

Module PerformanceSynthesizerUI.

Inductive Phase := PIdle | PVisual | PAudio | PAnimation | PSync | PComplete.

Definition phase_name (p : Phase) : string :=
  match p with
  | PIdle => "idle"
  | PVisual => "visual"
  | PAudio => "audio"
  | PAnimation => "animation"
  | PSync => "sync"
  | PComplete => "complete"
  end.

(** [Array.prototype.indexOf] on strings: the first position, or -1. *)
Fixpoint indexOf (x : string) (l : list string) : Z :=
  match l with
  | [] => (-1)%Z
  | y :: rest =>
      if String.eqb y x then 0%Z
      else let i := indexOf x rest in
           if (i <? 0)%Z then (-1)%Z else (i + 1)%Z
  end.

Definition phases : list string := ["visual"; "audio"; "animation"; "sync"; "complete"].

(** [getPhaseStatus], with the phase of [synthesisStatus] as a parameter. *)
Definition getPhaseStatus (phase : Phase) (targetPhase : string) : string :=
  if String.eqb (phase_name phase) "idle" then "pending"
  else if String.eqb (phase_name phase) targetPhase then "active"
  else
    let currentIndex := indexOf (phase_name phase) phases in
    let targetIndex := indexOf targetPhase phases in
    if (currentIndex >? targetIndex)%Z then "complete" else "pending".

End PerformanceSynthesizerUI.

(** ** Sample inputs for the engine *)

Definition sample_ocean (o c e a n : Q) : CharacterDefinitionEngine.Ocean :=
  {| CharacterDefinitionEngine.openness := o;
     CharacterDefinitionEngine.conscientiousness := c;
     CharacterDefinitionEngine.extraversion := e;
     CharacterDefinitionEngine.agreeableness := a;
     CharacterDefinitionEngine.neuroticism := n |}.

(** The profile [PsychometricAnalyzer.generateProfile] returns, with the
    OCEAN scores as parameters. *)
Definition sample_profile (o c e a n : Q) : CharacterDefinitionEngine.PsychometricProfile :=
  {| CharacterDefinitionEngine.mbti :=
       {| CharacterDefinitionEngine.mbti_type := "ENFJ";
          CharacterDefinitionEngine.mbti_confidence := 0.8;
          CharacterDefinitionEngine.breakdown :=
            {| CharacterDefinitionEngine.E_I := 70; CharacterDefinitionEngine.S_N := 60;
               CharacterDefinitionEngine.T_F := 30; CharacterDefinitionEngine.J_P := 65 |} |};
     CharacterDefinitionEngine.enneagram :=
       {| CharacterDefinitionEngine.enneagram_type := 2;
          CharacterDefinitionEngine.wing := 1;
          CharacterDefinitionEngine.enneagram_confidence := 0.75;
          CharacterDefinitionEngine.enneagram_description :=
            "The Helper - caring and interpersonally focused" |};
     CharacterDefinitionEngine.ocean := sample_ocean o c e a n |}.

(** The profile [ArchetypeAnalyzer.analyzeArchetype] returns, with the
    primary archetype as a parameter. *)
Definition sample_archetype (p : string) : CharacterDefinitionEngine.ArchetypeProfile :=
  {| CharacterDefinitionEngine.primary := p;
     CharacterDefinitionEngine.secondary := "Caregiver";
     CharacterDefinitionEngine.confidence := 0.85;
     CharacterDefinitionEngine.characteristics := ["Brave"; "Determined"; "Protective"];
     CharacterDefinitionEngine.motivations :=
       ["Help others"; "Overcome challenges"; "Make a difference"];
     CharacterDefinitionEngine.fears :=
       ["Failure"; "Letting others down"; "Being powerless"];
     CharacterDefinitionEngine.growth_arc :=
       "Learning to balance heroism with self-care" |}.

(** An engine that echoes the audio output in place of the visual one. *)
Definition swapping_engine : SynchronizationEngine :=
  {| se_synchronizeOutputs := fun v a n => SynchronizationEngineImpl.synchronizeOutputs a a n;
     se_calculateSyncPoints := SynchronizationEngineImpl.calculateSyncPoints |}.


(** The archetypes the four style tables of the engine have entries for. *)
Definition known_archetypes : list string :=
  ["Hero"; "Lover"; "Sage"; "Innocent"; "Explorer"; "Ruler"; "Creator";
   "Caregiver"; "Magician"; "Outlaw"; "Everyman"; "Jester"].

Definition known_archetype (key : string) : bool :=
  existsb (String.eqb key) known_archetypes.

(** * Properties *)

(** ** The monad *)

Lemma bind_ret_l {A B} (a : A) (k : A -> M B) (w : World) :
  bind (ret a) k w = k a w.
Proof. reflexivity. Qed.

Lemma bind_throw_l {A B} (e : Thrown) (k : A -> M B) (w : World) :
  bind (throw e) k w = (Throw e, w).
Proof. reflexivity. Qed.

Lemma bind_assoc {A B C} (c : M A) (k : A -> M B) (h : B -> M C) (w : World) :
  bind (bind c k) h w = bind c (fun a => bind (k a) h) w.
Proof.
  unfold bind. destruct (c w) as [[a | e] w']; reflexivity.
Qed.

Lemma try_catch_ok {A} (body : M A) (handler : Thrown -> M A) w a w' :
  body w = (Ok a, w') -> try_catch body handler w = (Ok a, w').
Proof. unfold try_catch. intros ->. reflexivity. Qed.

Lemma try_catch_throw {A} (body : M A) (handler : Thrown -> M A) w e w' :
  body w = (Throw e, w') -> try_catch body handler w = handler e w'.
Proof. unfold try_catch. intros ->. reflexivity. Qed.

(** ** Construction *)

Lemma constructor_installs ontology w :
  constructor ontology w = (Ok (installed ontology), w).
Proof. reflexivity. Qed.

(** ** The validators *)

Lemma validateQuality_resolves s w :
  exists q, validateQuality s w = (Ok q, w) /\ overall_quality q = 0.93.
Proof. eexists. split; reflexivity. Qed.

Lemma validateConsistency_resolves s w :
  exists c, validateConsistency s w = (Ok c, w)
            /\ overall_consistency c = 0.91 /\ cross_modal c = Some 0.92.
Proof. eexists. repeat split; reflexivity. Qed.

(** ** The installed engine *)

Lemma synchronizeOutputs_resolves v a n w :
  exists s, SynchronizationEngineImpl.synchronizeOutputs v a n w = (Ok s, w)
            /\ visual s = v /\ audio s = a /\ animation s = n
            /\ sync_points (synchronization s) = [].
Proof. eexists. repeat split; reflexivity. Qed.

(** ** The pipeline *)

(** Whatever generators and engine are plugged in, a run either resolves
    with the constant scores or rejects with the wrapped [Error]. *)
Lemma synthesizePerformance_outcome this instructions w :
  match synthesizePerformance this instructions w with
  | (Ok p, _) =>
      sp_characterId p = "temp-id"
      /\ qualityScore (sp_metadata p) = 0.93
      /\ consistencyScore (sp_metadata p) = 0.91
  | (Throw e, _) =>
      exists cause, e = Error ("Performance synthesis failed: " ++ toString cause)
  end.
Proof.
  unfold synthesizePerformance, try_catch.
  destruct (synthesize_body this instructions w) as [[p | e] w'] eqn:Hbody.
  - revert Hbody.
    unfold synthesize_body, promise_all3, promise_all2, bind, settle,
      generateVisualPerformance, generateAudioPerformance, generateAnimationPerformance.
    destruct (vg_generateVisualPerformance _ _ _) as [[v | ev] wv];
      destruct (ag_generateAudioPerformance _ _ _) as [[a | ea] wa];
      destruct (ng_generateAnimationPerformance _ _ _) as [[n | en] wn];
      cbn; try discriminate.
    destruct (se_synchronizeOutputs _ _ _ _ _) as [[s | es] ws]; cbn; try discriminate.
    intros [= <- _]. cbn. repeat split.
  - cbn. exists e. reflexivity.
Qed.

(** With the generators and the engine the constructor installs, every run
    resolves, after three clock readings and without touching the console. *)
Lemma synthesizePerformance_installed ontology instructions w :
  exists p,
    synthesizePerformance (installed ontology) instructions w
    = (Ok p, {| now := now w; reads := S (S (S (reads w))); console := console w |})
    /\ sp_characterId p = "temp-id"
    /\ qualityScore (sp_metadata p) = 0.93
    /\ consistencyScore (sp_metadata p) = 0.91.
Proof. eexists. repeat split; reflexivity. Qed.

(** A generator that throws: the two other generators still run, the
    error is logged and the run rejects with the wrapped [Error]. *)
Example rejection_is_wrapped :
  synthesizePerformance
    {| characterModel := initializeCharacterModel sample_ontology;
       visualGenerator := failing_visual (GenerationError Visual "backend down");
       audioGenerator := AudioGeneratorImpl.make;
       animationGenerator := AnimationGeneratorImpl.make;
       synchronizationEngine := SynchronizationEngineImpl.make;
       qualityAssurance := empty_obj;
       consistencyEngine := empty_obj |}
    (sample_instructions "char-1" 50) world0
  = (Throw (Error "Performance synthesis failed: GenerationError: backend down"),
     {| now := now world0; reads := 0;
        console := [("Error synthesizing performance:",
                     GenerationError Visual "backend down")] |}).
Proof. reflexivity. Qed.

Lemma synchronized_output_installed ontology instructions w :
  exists s,
    synchronized_output (installed ontology) instructions w = (Ok s, w)
    /\ sync_points (synchronization s) = []
    /\ overall_quality (quality_metrics s) = 0.93.
Proof. eexists. repeat split; reflexivity. Qed.

(** ** Quality gate *)

(** C1, counterexample: with a minimum threshold of 0.95 the aggregate
    quality 0.93 of the run is below the threshold, yet the run resolves
    instead of failing with [QualityGateFailed]. *)
Lemma quality_gate_not_enforced :
  ~ quality_gate_enforced 0.95 (installed sample_ontology)
      (sample_instructions "char-1" 50) world0.
Proof.
  intros H.
  destruct (H _ _ _ _ eq_refl eq_refl) as [w' Hw'].
  - reflexivity.
  - discriminate Hw'.
Qed.

(** C1, as amended: [synthesizePerformance] applies no quality gate. The
    aggregate quality [validateQuality] reports is 0.93 for every
    synchronized performance; a run that resolves carries that 0.93 as its
    [metadata.qualityScore]; a run that rejects does so with the wrapped
    plain [Error], never with [QualityGateFailed]; and with the installed
    generators and engine every run resolves. *)
Theorem synthesizePerformance_applies_no_quality_gate :
  forall this ontology instructions w,
    (forall s, exists q, validateQuality s w = (Ok q, w) /\ overall_quality q = 0.93)
    /\ match synthesizePerformance this instructions w with
       | (Ok p, _) => qualityScore (sp_metadata p) = 0.93
       | (Throw e, _) =>
           (forall scorecard, e <> QualityGateFailed scorecard)
           /\ exists cause, e = Error ("Performance synthesis failed: " ++ toString cause)
       end
    /\ exists p w',
         synthesizePerformance (installed ontology) instructions w = (Ok p, w')
         /\ qualityScore (sp_metadata p) = 0.93.
Proof.
  intros this ontology instructions w. split; [| split].
  - intros s. apply validateQuality_resolves.
  - pose proof (synthesizePerformance_outcome this instructions w) as H.
    destruct (synthesizePerformance this instructions w) as [[p | e] w'].
    + apply H.
    + destruct H as [cause ->]. split; [discriminate | now exists cause].
  - destruct (synthesizePerformance_installed ontology instructions w) as [p [Hp [_ [Hq _]]]].
    now exists p, {| now := now w; reads := S (S (S (reads w))); console := console w |}.
Qed.

(** ** Sync points *)

(** C2, counterexample: the installed pipeline resolves on the sample
    request, its three generators succeeding within tolerance, while the
    sync point list of its synchronized output is empty. *)
Lemma timeline_is_empty :
  ~ timeline_well_formed (installed sample_ontology)
      (sample_instructions "char-1" 50) world0.
Proof.
  intros H.
  destruct (H _ _ _ _ eq_refl eq_refl eq_refl) as [Hne _].
  apply Hne. reflexivity.
Qed.

(** C2, as amended: the sync point list the engine produces is always
    empty, hence strictly increasing in [timestamp] only vacuously; this
    holds for the engine on any three outputs and for the synchronized
    output of every run of the installed pipeline, which resolves. *)
Theorem sync_points_always_empty :
  forall ontology instructions visual audio animation w,
    (exists s,
       SynchronizationEngineImpl.synchronizeOutputs visual audio animation w = (Ok s, w)
       /\ sync_points (synchronization s) = []
       /\ strictly_increasing (sync_points (synchronization s)))
    /\ exists s p w',
         synchronized_output (installed ontology) instructions w = (Ok s, w)
         /\ synthesizePerformance (installed ontology) instructions w = (Ok p, w')
         /\ sync_points (synchronization s) = []
         /\ strictly_increasing (sync_points (synchronization s)).
Proof.
  intros ontology instructions v a n w. split.
  - destruct (synchronizeOutputs_resolves v a n w) as [s [Hs [_ [_ [_ Hpts]]]]].
    exists s. repeat split; trivial. rewrite Hpts. constructor.
  - destruct (synchronized_output_installed ontology instructions w) as [s [Hs [Hpts _]]].
    destruct (synthesizePerformance_installed ontology instructions w) as [p [Hp _]].
    exists s, p. eexists. repeat split; eauto. rewrite Hpts. constructor.
Qed.

(** ** Duration divergence *)

Example diverges_at_120_percent :
  diverges syncTolerancePercent (timed 1000) (timed 1000) (timed 1200) = true.
Proof. reflexivity. Qed.

Example within_tolerance_at_110_percent :
  diverges syncTolerancePercent (timed 1000) (timed 1000) (timed 1100) = false.
Proof. reflexivity. Qed.

(** C3, counterexample: with animation 1.20 times as long as visual and
    audio the durations diverge beyond 15%, but the engine does not fail
    with [SynchronizationError]. *)
Lemma divergence_not_rejected :
  ~ divergence_rejected (timed 1000) (timed 1000) (timed 1200) world0.
Proof.
  intros [_ H].
  destruct (H diverges_at_120_percent) as [w' Hw'].
  discriminate Hw'.
Qed.

(** C3, as amended: [synchronizeOutputs] never fails, whatever the
    durations of the three performances (so it succeeds at 1.10 times and
    at 1.20 times alike); the stated equivalence with divergence therefore
    holds exactly on the inputs that are within tolerance. *)
Theorem synchronizeOutputs_never_fails :
  forall visual audio animation w,
    (exists s,
       SynchronizationEngineImpl.synchronizeOutputs visual audio animation w = (Ok s, w))
    /\ (forall e w',
          SynchronizationEngineImpl.synchronizeOutputs visual audio animation w
          <> (Throw e, w'))
    /\ (divergence_rejected visual audio animation w
        <-> diverges syncTolerancePercent visual audio animation = false).
Proof.
  intros v a n w. split; [| split].
  - destruct (synchronizeOutputs_resolves v a n w) as [s [Hs _]]. now exists s.
  - intros e w'. discriminate.
  - unfold divergence_rejected. split.
    + intros [_ H]. destruct (diverges _ _ _ _); [| reflexivity].
      destruct (H eq_refl) as [w' Hw']. discriminate Hw'.
    + intros Hd. rewrite Hd. split.
      * intros [w' Hw']. discriminate Hw'.
      * discriminate.
Qed.

(** ** Character identity *)

(** C4, counterexample: a synthesizer built for character "char-1"
    accepts instructions addressed to "char-2" and resolves. *)
Lemma mismatch_not_rejected :
  ~ mismatch_rejected sample_ontology (sample_instructions "char-2" 50) world0.
Proof.
  intros H.
  destruct (H ltac:(discriminate) _ _ eq_refl) as [w' Hw'].
  discriminate Hw'.
Qed.

(** C4, as amended: [synthesizePerformance] never compares
    [instructions.characterId] with the character the synthesizer was built
    from. Construction succeeds for every ontology, the synthesizer so
    built resolves for every instruction set with the fixed
    [characterId] "temp-id", and no synthesizer, whatever is plugged into
    it, rejects with [MismatchedCharacter]. *)
Theorem characterId_is_never_checked :
  forall ontology instructions w,
    (exists this p w',
       constructor ontology w = (Ok this, w)
       /\ synthesizePerformance this instructions w = (Ok p, w')
       /\ sp_characterId p = "temp-id")
    /\ forall this w',
         synthesizePerformance this instructions w <> (Throw MismatchedCharacter, w').
Proof.
  intros ontology instructions w. split.
  - destruct (synthesizePerformance_installed ontology instructions w) as [p [Hp [Hid _]]].
    exists (installed ontology), p. eexists. repeat split; eauto.
  - intros this w' Heq.
    pose proof (synthesizePerformance_outcome this instructions w) as H.
    rewrite Heq in H. destruct H as [cause Hc]. discriminate Hc.
Qed.

(** ** Validators *)

(** C5: both validators are pure and deterministic. Called twice in a row
    on the same synchronized performance, each resolves both times with the
    same scorecard and leaves the world as it found it; and the scorecard
    does not depend on the world the call is made in. *)
Theorem validators_are_deterministic :
  forall s w w2,
    (exists q,
       twice (validateQuality s) w = (Ok (q, q), w)
       /\ fst (validateQuality s w2) = Ok q)
    /\ (exists c,
          twice (validateConsistency s) w = (Ok (c, c), w)
          /\ fst (validateConsistency s w2) = Ok c).
Proof.
  intros s w w2. split; eexists; split; reflexivity.
Qed.

(** C10: the validators are constant. For any two synchronized
    performances [validateQuality] resolves with one and the same
    scorecard, whose [overall_quality] is 0.93, and [validateConsistency]
    with one and the same scorecard, whose [overall_consistency] is 0.91. *)
Theorem validators_are_constant :
  forall s1 s2 w1 w2,
    (exists q,
       validateQuality s1 w1 = (Ok q, w1)
       /\ validateQuality s2 w2 = (Ok q, w2)
       /\ overall_quality q = 0.93)
    /\ (exists c,
          validateConsistency s1 w1 = (Ok c, w1)
          /\ validateConsistency s2 w2 = (Ok c, w2)
          /\ overall_consistency c = 0.91).
Proof.
  intros s1 s2 w1 w2. split; eexists; repeat split; reflexivity.
Qed.

(** ** Cross-modal score *)

Lemma cross_modal_formula_092 reported requested :
  0.92 == cross_modal_formula reported requested
  <-> Qabs (reported - requested) == 8.
Proof.
  unfold cross_modal_formula.
  set (d := Qabs (reported - requested)).
  split; intros H.
  - assert (Hd : d == (1 - (1 - d / 100)) * 100) by field.
    rewrite Hd, <- H. reflexivity.
  - rewrite H. reflexivity.
Qed.

(** C6, counterexample: when the reported and the requested intensity are
    both 50 the formula gives 1, but the score is 0.92. *)
Lemma cross_modal_ignores_intensity :
  ~ cross_modal_follows_formula 50 sample_synchronized
      (sample_instructions "char-1" 50) world0.
Proof.
  intros H.
  destruct (H _ _ eq_refl) as [score [Hscore Hformula]].
  injection Hscore as <-.
  apply cross_modal_formula_092 in Hformula.
  vm_compute in Hformula. discriminate Hformula.
Qed.

(** C6, as amended: the [emotional_consistency.cross_modal] score is the
    constant 0.92 for every synchronized performance, independent of the
    requested intensity; it coincides with the formula
    [1 - |reported - requested| / 100] exactly when the two intensities
    differ by 8. *)
Theorem cross_modal_is_constant :
  forall s w reported requested,
    (exists c, validateConsistency s w = (Ok c, w) /\ cross_modal c = Some 0.92)
    /\ (0.92 == cross_modal_formula reported requested
        <-> Qabs (reported - requested) == 8).
Proof.
  intros s w reported requested. split.
  - destruct (validateConsistency_resolves s w) as [c [Hc [_ Hx]]]. now exists c.
  - apply cross_modal_formula_092.
Qed.

(** ** Configuration *)

(** C7, counterexample: with quality weights 0.3, 0.3, 0.2 and 0.1, which
    sum to 0.9, constructing the synthesizer does not fail. *)
Lemma weights_not_validated :
  ~ weights_validated sample_weights sample_ontology world0.
Proof.
  intros H. destruct H as [w' Hw'].
  - intros Hsum. vm_compute in Hsum. discriminate Hsum.
  - discriminate Hw'.
Qed.

(** C7, as amended: the constructor takes a character ontology and no
    quality weights, and never fails: for every ontology it returns a
    synthesizer, leaving the world untouched, and that synthesizer accepts
    every request, resolving it. *)
Theorem construction_never_fails :
  forall ontology w,
    exists this,
      createMultimodalPerformanceSynthesizer ontology w = (Ok this, w)
      /\ forall instructions w1,
           exists p w', synthesizePerformance this instructions w1 = (Ok p, w').
Proof.
  intros ontology w. exists (installed ontology). split.
  - apply constructor_installs.
  - intros instructions w1.
    destruct (synthesizePerformance_installed ontology instructions w1) as [p [Hp _]].
    eauto.
Qed.

(** ** Frame of the synchronization step *)

(** C9: the synchronized performance [synchronizeOutputs] returns holds
    the three input performances unchanged in its [visual], [audio] and
    [animation] fields. *)
Theorem synchronizeOutputs_preserves_modalities :
  forall visual_in audio_in animation_in w,
    exists s,
      SynchronizationEngineImpl.synchronizeOutputs visual_in audio_in animation_in w
      = (Ok s, w)
      /\ visual s = visual_in
      /\ audio s = audio_in
      /\ animation s = animation_in.
Proof.
  intros v a n w.
  destruct (synchronizeOutputs_resolves v a n w) as [s [Hs [Hv [Ha [Hn _]]]]].
  now exists s.
Qed.

(** * Further properties of the code *)

(** ** Comparisons and lists built by guarded pushes *)

Lemma gt_true x y : gt x y = true <-> y < x.
Proof.
  unfold gt, Qltb. rewrite negb_true_iff.
  split.
  - intros H. apply Qnot_le_lt. intros Hle.
    apply Qle_bool_iff in Hle. congruence.
  - intros H. destruct (Qle_bool x y) eqn:E; [| reflexivity].
    apply Qle_bool_iff in E. exfalso. apply (Qlt_not_le _ _ H E).
Qed.

Lemma lt_true x y : lt x y = true <-> x < y.
Proof. apply gt_true. Qed.

Lemma gt_weaken x a b : b <= a -> gt x a = true -> gt x b = true.
Proof.
  rewrite !gt_true. intros Hba Hax. eapply Qle_lt_trans; eassumption.
Qed.

Lemma gt_lt_exclusive x a b : b <= a -> gt x a = true -> lt x b = true -> False.
Proof.
  rewrite gt_true, lt_true. intros Hba Hax Hxb.
  apply (Qlt_irrefl x). eapply Qlt_trans; [eassumption |].
  eapply Qle_lt_trans; eassumption.
Qed.

Lemma in_pushed x cond items : In x (pushed cond items) <-> cond = true /\ In x items.
Proof.
  destruct cond; cbn; intuition discriminate.
Qed.

(** Decides membership of a literal in a list of literals. *)
Ltac literal_membership :=
  cbn [In]; intuition (try discriminate; try congruence).

(** Rewrites membership in a list built by guarded pushes into the guards. *)
Ltac markers :=
  rewrite ?in_app_iff, ?in_pushed; literal_membership.

(** ** Looking a character up *)

(** X1: [getCharacter] has no store behind it, so [updateCharacter]
    rejects with "Character not found" for every id and every update,
    without reaching the validator and without any effect. *)
Theorem updateCharacter_always_rejects :
  forall characterId updates w,
    CharacterDefinitionEngine.getCharacter characterId w
    = (Throw (Error "Character not found"), w)
    /\ CharacterDefinitionEngine.updateCharacter characterId updates w
       = (Throw (Error "Character not found"), w)
    /\ forall character w',
         CharacterDefinitionEngine.updateCharacter characterId updates w
         <> (Ok character, w').
Proof.
  intros characterId updates w. repeat split. intros character w'. discriminate.
Qed.

(** ** Traits derived from the OCEAN scores *)

Import CharacterDefinitionEngine.

(** X2: voice type and social behaviour are decided by the same
    extraversion bands (above 70, below 30, in between, both bounds
    belonging to the middle band), so they always agree; and a "Quick" pace
    or the "Leadership" talent only occur with the confident voice. *)
Theorem voice_and_social_behaviour_agree :
  forall psychometric archetype,
    (determineVoiceType psychometric archetype = "Confident and Clear"
     <-> determineSocialBehavior (ocean psychometric) = "Highly social and outgoing")
    /\ (determineVoiceType psychometric archetype = "Soft and Thoughtful"
        <-> determineSocialBehavior (ocean psychometric) = "Prefers small groups or solitude")
    /\ (determineVoiceType psychometric archetype = "Balanced and Warm"
        <-> determineSocialBehavior (ocean psychometric)
            = "Comfortable in most social situations")
    /\ (determineVoiceType psychometric archetype = "Confident and Clear"
        <-> In "Leadership" (generateTalents psychometric archetype))
    /\ (determinePace (ocean psychometric) = "Quick"
        -> determineVoiceType psychometric archetype = "Confident and Clear").
Proof.
  intros p a.
  unfold determineVoiceType, determineSocialBehavior, determinePace, generateTalents.
  rewrite ?in_app_iff, ?in_pushed.
  destruct (gt (extraversion (ocean p)) 70), (lt (extraversion (ocean p)) 30),
    (gt (conscientiousness (ocean p)) 70);
    literal_membership.
Qed.

(** X3: the signs of anxiety agree. "anxious" in the emotional range,
    "anxiety" among the core emotions, the fidgeting quirk and the anxious
    stress response all appear exactly when neuroticism exceeds 60, and the
    weakness "Anxiety under pressure" (neuroticism above 70) never appears
    without them. *)
Theorem anxiety_markers_agree :
  forall psychometric archetype,
    let anxious := gt (neuroticism (ocean psychometric)) 60 = true in
    (In "anxious" (determineEmotionalRange psychometric) <-> anxious)
    /\ (In "worried" (determineEmotionalRange psychometric) <-> anxious)
    /\ (In "anxiety" (determineCoreEmotions psychometric) <-> anxious)
    /\ (In "Fidgets when nervous" (generateHabitsAndQuirks psychometric) <-> anxious)
    /\ (In "Becomes anxious quickly" (generateStressResponses psychometric) <-> anxious)
    /\ (In "Anxiety under pressure" (generateWeaknesses psychometric archetype) -> anxious).
Proof.
  intros p a anxious. subst anxious.
  assert (H : gt (neuroticism (ocean p)) 70 = true -> gt (neuroticism (ocean p)) 60 = true)
    by (apply gt_weaken; discriminate).
  unfold determineEmotionalRange, determineCoreEmotions, generateHabitsAndQuirks,
    generateStressResponses, generateWeaknesses.
  repeat split; markers.
Qed.

(** X4: the signs of sociability agree. "excited" in the emotional range,
    "joy" among the core emotions, seeking social support, talking to
    friends and social hobbies all appear exactly when extraversion
    exceeds 60; the "Leadership" talent (extraversion above 70) never
    appears without them. *)
Theorem sociability_markers_agree :
  forall psychometric archetype,
    let sociable := gt (extraversion (ocean psychometric)) 60 = true in
    (In "excited" (determineEmotionalRange psychometric) <-> sociable)
    /\ (In "enthusiastic" (determineEmotionalRange psychometric) <-> sociable)
    /\ (In "joy" (determineCoreEmotions psychometric) <-> sociable)
    /\ (In "Seeks social support" (generateStressResponses psychometric) <-> sociable)
    /\ (In "Talking to friends" (generateCopingMechanisms psychometric) <-> sociable)
    /\ (In "Social activities" (generateHobbies psychometric) <-> sociable)
    /\ (In "Leadership" (generateTalents psychometric archetype) -> sociable).
Proof.
  intros p a sociable. subst sociable.
  assert (H : gt (extraversion (ocean p)) 70 = true -> gt (extraversion (ocean p)) 60 = true)
    by (apply gt_weaken; discriminate).
  unfold determineEmotionalRange, determineCoreEmotions, generateStressResponses,
    generateCopingMechanisms, generateHobbies, generateTalents.
  repeat split; markers.
Qed.

(** X5: talents and weaknesses never contradict each other. "Organization"
    and "Disorganization" are never attributed together, and whoever has
    "Difficulty saying no" also has "Empathy". *)
Theorem talents_and_weaknesses_are_compatible :
  forall psychometric archetype,
    ~ (In "Organization" (generateTalents psychometric archetype)
       /\ In "Disorganization" (generateWeaknesses psychometric archetype))
    /\ (In "Difficulty saying no" (generateWeaknesses psychometric archetype)
        -> In "Empathy" (generateTalents psychometric archetype)).
Proof.
  intros p a.
  assert (Hc : gt (conscientiousness (ocean p)) 70 = true ->
               lt (conscientiousness (ocean p)) 30 = true -> False)
    by (apply gt_lt_exclusive; discriminate).
  assert (Ha : gt (agreeableness (ocean p)) 80 = true -> gt (agreeableness (ocean p)) 70 = true)
    by (apply gt_weaken; discriminate).
  unfold generateTalents, generateWeaknesses.
  split; markers.
Qed.

(** X6: the signs of conscientiousness and of openness agree. A "Measured"
    pace, the "Organization" talent, precise language, checking things
    twice and becoming more organized under stress occur together (score
    above 70) and always with list making and the "Organizing" hobby
    (score above 60); likewise creative thinking, creative metaphors and
    collecting objects occur together and always with "Reading", "Art" and
    creative expression. *)
Theorem conscientiousness_and_openness_markers_agree :
  forall psychometric archetype,
    let careful := gt (conscientiousness (ocean psychometric)) 70 = true in
    let curious := gt (openness (ocean psychometric)) 70 = true in
    (determinePace (ocean psychometric) = "Measured" <-> careful)
    /\ (In "Organization" (generateTalents psychometric archetype) <-> careful)
    /\ (In "Precise language" (generateSpeechPatterns psychometric archetype) <-> careful)
    /\ (In "Always checks things twice" (generateHabitsAndQuirks psychometric) <-> careful)
    /\ (In "Becomes more organized" (generateStressResponses psychometric) <-> careful)
    /\ (careful -> In "Making lists and plans" (generateCopingMechanisms psychometric)
                   /\ In "Organizing" (generateHobbies psychometric))
    /\ (In "Creative thinking" (generateTalents psychometric archetype) <-> curious)
    /\ (In "Creative metaphors" (generateSpeechPatterns psychometric archetype) <-> curious)
    /\ (In "Collects interesting objects" (generateHabitsAndQuirks psychometric) <-> curious)
    /\ (curious -> In "Reading" (generateHobbies psychometric)
                   /\ In "Art" (generateHobbies psychometric)
                   /\ In "Creative expression" (generateCopingMechanisms psychometric)).
Proof.
  intros p a careful curious. subst careful curious.
  assert (Hc : gt (conscientiousness (ocean p)) 70 = true ->
               gt (conscientiousness (ocean p)) 60 = true)
    by (apply gt_weaken; discriminate).
  assert (Ho : gt (openness (ocean p)) 70 = true -> gt (openness (ocean p)) 60 = true)
    by (apply gt_weaken; discriminate).
  unfold determinePace, generateTalents, generateSpeechPatterns, generateHabitsAndQuirks,
    generateStressResponses, generateCopingMechanisms, generateHobbies.
  repeat split; try solve [markers].
  - destruct (gt (conscientiousness (ocean p)) 70); [reflexivity |].
    destruct (gt (extraversion (ocean p)) 70); discriminate.
  - intros ->. reflexivity.
Qed.

(** X7: the emotional range always starts with "calm", "happy",
    "concerned", never lists an emotion twice, and has 3, 5, 7 or 9
    entries; the core emotions start with "contentment", have no
    duplicates and between one and four entries. *)
Theorem emotional_lists_are_well_formed :
  forall psychometric,
    firstn 3 (determineEmotionalRange psychometric) = ["calm"; "happy"; "concerned"]
    /\ NoDup (determineEmotionalRange psychometric)
    /\ (3 <= length (determineEmotionalRange psychometric) <= 9)%nat
    /\ Nat.Odd (length (determineEmotionalRange psychometric))
    /\ hd_error (determineCoreEmotions psychometric) = Some "contentment"
    /\ NoDup (determineCoreEmotions psychometric)
    /\ (1 <= length (determineCoreEmotions psychometric) <= 4)%nat.
Proof.
  intros p. unfold determineEmotionalRange, determineCoreEmotions.
  destruct (gt (neuroticism (ocean p)) 60), (gt (extraversion (ocean p)) 60),
    (gt (agreeableness (ocean p)) 60); cbn;
    (repeat split;
     [ repeat (constructor; [literal_membership |]); constructor
     | lia | lia
     | first [ now exists 1%nat | now exists 2%nat | now exists 3%nat | now exists 4%nat ]
     | repeat (constructor; [literal_membership |]); constructor
     | lia | lia ]).
Qed.

(** ** Emotional intelligence *)

Lemma Math_round_half (m : Z) : Math_round (inject_Z m / 2) = inject_Z ((m + 1) / 2).
Proof.
  unfold Math_round. f_equal.
  assert (E : inject_Z m / 2 + (1 # 2) == (m + 1) # 2).
  { unfold Qeq, Qdiv, Qmult, Qplus, Qinv, inject_Z. cbn. lia. }
  rewrite E. reflexivity.
Qed.

(** X8: for whole-number scores between 0 and 100, the emotional
    intelligence is the mean of empathy (agreeableness) and emotional
    stability (100 - neuroticism) rounded half up; it is a whole number
    between 0 and 100 that lies between the two. *)
Theorem emotional_intelligence_is_bounded :
  forall psychometric (a n : Z),
    agreeableness (ocean psychometric) == inject_Z a ->
    neuroticism (ocean psychometric) == inject_Z n ->
    (0 <= a <= 100)%Z ->
    (0 <= n <= 100)%Z ->
    exists ei : Z,
      calculateEmotionalIntelligence psychometric = inject_Z ei
      /\ ei = ((a + (100 - n) + 1) / 2)%Z
      /\ (0 <= ei <= 100)%Z
      /\ (Z.min a (100 - n) <= ei <= Z.max a (100 - n))%Z.
Proof.
  intros p a n Ha Hn Hra Hrn.
  exists ((a + (100 - n) + 1) / 2)%Z.
  split; [| split; [reflexivity | split; Z.div_mod_to_equations; lia]].
  unfold calculateEmotionalIntelligence.
  rewrite <- Math_round_half.
  unfold Math_round. f_equal. apply Qfloor_comp.
  rewrite Ha, Hn.
  rewrite inject_Z_plus. unfold Z.sub. rewrite inject_Z_plus, inject_Z_opp.
  change (inject_Z 100) with 100. field.
Qed.

(** X8, at agreeableness 85 and neuroticism 30, the scores the
    psychometric analyzer reports: the mean 77.5 rounds up to 78. *)
Lemma emotional_intelligence_is_bounded_witness :
  exists ei : Z,
    calculateEmotionalIntelligence (sample_profile 75 80 70 85 30) = inject_Z ei
    /\ ei = 78%Z
    /\ (0 <= ei <= 100)%Z
    /\ (Z.min 85 (100 - 30) <= ei <= Z.max 85 (100 - 30))%Z.
Proof.
  apply (emotional_intelligence_is_bounded (sample_profile 75 80 70 85 30) 85 30).
  - reflexivity.
  - reflexivity.
  - lia.
  - lia.
Defined.

(** ** Archetype tables *)

(** X9: the four archetype tables cover the same twelve archetypes. For a
    primary archetype that is not a property name inherited from
    [Object.prototype], shadow archetype, fashion style, colour palette and
    accessories are all table entries when the archetype is one of the
    twelve and all fall back to their defaults ("Shadow", "Casual",
    gray/blue/white, a watch) otherwise; a palette always has three
    colours and there are always one or two accessories. *)
Theorem archetype_tables_are_aligned :
  forall archetype,
    inherited (primary archetype) = false ->
    exists shadow style palette accessories,
      determineShadowArchetype (primary archetype) = Value shadow
      /\ determineFashionStyle archetype = Value style
      /\ generateColorPalette archetype = Value palette
      /\ generateAccessories archetype = Value accessories
      /\ (shadow = "Shadow" <-> known_archetype (primary archetype) = false)
      /\ (style = "Casual" <-> known_archetype (primary archetype) = false)
      /\ (palette = ["gray"; "blue"; "white"] <-> known_archetype (primary archetype) = false)
      /\ (accessories = ["watch"] <-> known_archetype (primary archetype) = false)
      /\ length palette = 3%nat
      /\ (1 <= length accessories <= 2)%nat.
Proof.
  intros archetype Hproto.
  unfold determineShadowArchetype, determineFashionStyle, generateColorPalette,
    generateAccessories, lookup_or, known_archetype.
  cbn [shadowMap styleMap paletteMap accessoryMap own_property known_archetypes existsb].
  repeat (destruct (String.eqb (primary archetype) _);
          [ cbn; do 4 eexists; repeat split; intros; try discriminate; try reflexivity; cbn; lia
          | cbn [orb] ]).
  rewrite Hproto. do 4 eexists. repeat split; intros; try reflexivity; cbn; lia.
Qed.

(** X9, at the archetype the analyzer reports, "Hero". *)
Lemma archetype_tables_are_aligned_witness :
  inherited (primary (sample_archetype "Hero")) = false
  /\ exists shadow style palette accessories,
       determineShadowArchetype (primary (sample_archetype "Hero")) = Value shadow
       /\ determineFashionStyle (sample_archetype "Hero") = Value style
       /\ generateColorPalette (sample_archetype "Hero") = Value palette
       /\ generateAccessories (sample_archetype "Hero") = Value accessories
       /\ (shadow = "Shadow" <-> known_archetype (primary (sample_archetype "Hero")) = false)
       /\ (style = "Casual" <-> known_archetype (primary (sample_archetype "Hero")) = false)
       /\ (palette = ["gray"; "blue"; "white"]
           <-> known_archetype (primary (sample_archetype "Hero")) = false)
       /\ (accessories = ["watch"]
           <-> known_archetype (primary (sample_archetype "Hero")) = false)
       /\ length palette = 3%nat
       /\ (1 <= length accessories <= 2)%nat.
Proof.
  split; [reflexivity |].
  apply (archetype_tables_are_aligned (sample_archetype "Hero")). reflexivity.
Defined.

(** X10: an archetype named like a property every object inherits is not
    looked up in the table and does not get the default either: the
    inherited function or object is returned in place of a shadow
    archetype, a style, a palette or accessories. *)
Theorem inherited_names_bypass_the_tables :
  forall archetype,
    inherited (primary archetype) = true ->
    determineShadowArchetype (primary archetype) = Inherited (primary archetype)
    /\ determineFashionStyle archetype = Inherited (primary archetype)
    /\ generateColorPalette archetype = Inherited (primary archetype)
    /\ generateAccessories archetype = Inherited (primary archetype).
Proof.
  intros archetype Hkey.
  assert (Hown : known_archetype (primary archetype) = false).
  { unfold inherited in Hkey. apply existsb_exists in Hkey.
    destruct Hkey as [k [Hin Heq]]. apply String.eqb_eq in Heq. rewrite Heq. clear Heq.
    cbn in Hin. intuition (subst; reflexivity). }
  unfold known_archetype in Hown. cbn [known_archetypes existsb] in Hown.
  repeat (apply orb_false_iff in Hown; destruct Hown as [? Hown]).
  unfold determineShadowArchetype, determineFashionStyle, generateColorPalette,
    generateAccessories, lookup_or.
  cbn [shadowMap styleMap paletteMap accessoryMap own_property].
  repeat match goal with
         | H : String.eqb (primary archetype) _ = false |- _ => rewrite H; clear H
         end.
  rewrite Hkey. repeat split.
Qed.

(** X10, at the name "constructor". *)
Lemma inherited_names_bypass_the_tables_witness :
  inherited (primary (sample_archetype "constructor")) = true
  /\ determineShadowArchetype (primary (sample_archetype "constructor"))
     = Inherited "constructor"
  /\ determineFashionStyle (sample_archetype "constructor") = Inherited "constructor"
  /\ generateColorPalette (sample_archetype "constructor") = Inherited "constructor"
  /\ generateAccessories (sample_archetype "constructor") = Inherited "constructor".
Proof.
  split; [reflexivity |].
  apply (inherited_names_bypass_the_tables (sample_archetype "constructor")). reflexivity.
Defined.

(** X11: the emotional triggers are the first three fears, in order: at
    most three, a prefix of the fears, and all of them when there are no
    more than three (none when there are none). *)
Theorem emotional_triggers_are_first_fears :
  forall archetype,
    (length (generateEmotionalTriggers archetype) <= 3)%nat
    /\ length (generateEmotionalTriggers archetype) = Nat.min 3 (length (fears archetype))
    /\ (exists rest, fears archetype = (generateEmotionalTriggers archetype ++ rest)%list)
    /\ ((length (fears archetype) <= 3)%nat ->
        generateEmotionalTriggers archetype = fears archetype).
Proof.
  intros archetype. unfold generateEmotionalTriggers.
  rewrite length_firstn. repeat split.
  - lia.
  - exists (skipn 3 (fears archetype)). symmetry. apply firstn_skipn.
  - apply firstn_all2.
Qed.

(** ** Text searches *)

Lemma prefix_cons a p c s :
  String.prefix (String a p) (String c s) = true -> a = c /\ String.prefix p s = true.
Proof.
  cbn [String.prefix]. destruct (Ascii.ascii_dec a c); [auto | discriminate].
Qed.

Lemma prefix_cons_inv a p s :
  String.prefix (String a p) s = true ->
  exists rest, s = String a rest /\ String.prefix p rest = true.
Proof.
  destruct s as [| c rest]; [cbn [String.prefix]; discriminate |].
  intros H. apply prefix_cons in H. destruct H as [<- H]. eauto.
Qed.

Lemma prefix_same a p s :
  String.prefix p s = true -> String.prefix (String a p) (String a s) = true.
Proof.
  intros H. cbn [String.prefix]. destruct (Ascii.ascii_dec a a); congruence.
Qed.

Lemma includes_here pat s : String.prefix pat s = true -> includes pat s = true.
Proof. intros H. destruct s; cbn [includes]; rewrite H; reflexivity. Qed.

Lemma includes_later pat c s : includes pat s = true -> includes pat (String c s) = true.
Proof. intros H. cbn [includes]. rewrite H. apply orb_true_r. Qed.

(** Every text that contains "female" contains "male". *)
Lemma includes_female_male s : includes "female" s = true -> includes "male" s = true.
Proof.
  induction s as [| c s IH].
  - cbn [includes String.prefix orb]. discriminate.
  - cbn [includes]. intros H. apply orb_true_iff in H. destruct H as [H | H].
    + apply prefix_cons in H. destruct H as [_ H].
      destruct (prefix_cons_inv _ _ _ H) as [s2 [-> H2]].
      destruct (prefix_cons_inv _ _ _ H2) as [s3 [-> H3]].
      destruct (prefix_cons_inv _ _ _ H3) as [s4 [-> H4]].
      destruct (prefix_cons_inv _ _ _ H4) as [s5 [-> H5]].
      destruct (prefix_cons_inv _ _ _ H5) as [s6 [-> H6]].
      apply includes_later, includes_later, includes_here.
      repeat apply prefix_same. exact H6.
    + change (includes "male" (String c s) = true).
      apply includes_later, IH, H.
Qed.

Lemma lower_ascii_idempotent c : lower_ascii (lower_ascii c) = lower_ascii c.
Proof.
  destruct c as [[] [] [] [] [] [] [] []]; reflexivity.
Qed.

Lemma toLowerCase_idempotent s : toLowerCase (toLowerCase s) = toLowerCase s.
Proof.
  induction s as [| c s IH]; [reflexivity |].
  cbn. rewrite lower_ascii_idempotent, IH. reflexivity.
Qed.

Example pitch_of_young_woman : determinePitch (Some "Female") (Some 25) = "Medium-High".
Proof. reflexivity. Qed.

Example pitch_of_older_man : determinePitch (Some "Male") (Some 40) = "Medium-Low".
Proof. reflexivity. Qed.

(** X12: pitch. Without a gender or an age (absent, empty, or age 0) the
    pitch is "Medium". "female" is looked for before "male", which every
    text containing "female" also contains, so a gender mentioning
    "female" never gets the male pitches: "Medium-Low" is returned only
    for a gender that mentions "male" but not "female", at an age of 30 or
    more, and "Medium-High" only for one that mentions "female", below 30. *)
Theorem pitch_tests_female_before_male :
  forall gender age,
    (falsy_string gender || falsy_number age = true -> determinePitch gender age = "Medium")
    /\ (forall g, gender = Some g -> includes "female" (toLowerCase g) = true ->
          includes "male" (toLowerCase g) = true
          /\ determinePitch gender age <> "Medium-Low")
    /\ (determinePitch gender age = "Medium-Low" ->
          exists g a, gender = Some g /\ age = Some a
                      /\ includes "female" (toLowerCase g) = false
                      /\ includes "male" (toLowerCase g) = true
                      /\ lt a 30 = false)
    /\ (determinePitch gender age = "Medium-High" ->
          exists g a, gender = Some g /\ age = Some a
                      /\ includes "female" (toLowerCase g) = true
                      /\ lt a 30 = true).
Proof.
  intros gender age. unfold determinePitch.
  destruct gender as [g |], age as [a |];
    [ destruct (falsy_string (Some g) || falsy_number (Some a)) eqn:Hfalsy;
      [| destruct (includes "female" (toLowerCase g)) eqn:Hf;
         [ pose proof (includes_female_male _ Hf) as Hm
         | destruct (includes "male" (toLowerCase g)) eqn:Hm ];
         destruct (lt a 30) eqn:Hlt ]
    | | | ].
  all: repeat match goal with
              | |- _ => discriminate
              | |- _ /\ _ => split
              | |- forall _, _ => intro
              | H : Some _ = Some _ |- _ => injection H as <-
              | |- exists _, _ => eexists
              end.
  all: try reflexivity; try discriminate; try congruence.
  all: try (apply includes_female_male; assumption).
Qed.

Import NLPProcessor.

Example occupation_prefers_earlier_word :
  extractOccupation "A STUDENT who wants to be a Teacher" = Some "Teacher".
Proof. reflexivity. Qed.

(** X13: [extractOccupation] ignores case, returns one of the seven
    capitalised occupation words, namely the first in the order teacher,
    doctor, engineer, artist, lawyer, chef, student that occurs in the
    description, and returns nothing exactly when none occurs. *)
Theorem extractOccupation_finds_first_word :
  forall description,
    extractOccupation (toLowerCase description) = extractOccupation description
    /\ match extractOccupation description with
       | Some occupation =>
           In occupation (map capitalize occupationWords)
           /\ includes (toLowerCase occupation) (toLowerCase description) = true
           /\ forall before after,
                occupationWords = (before ++ toLowerCase occupation :: after)%list ->
                forall word, In word before ->
                  includes word (toLowerCase description) = false
       | None =>
           forall word, In word occupationWords ->
             includes word (toLowerCase description) = false
       end.
Proof.
  intros d. unfold extractOccupation. rewrite toLowerCase_idempotent.
  split; [reflexivity |].
  unfold occupationWords. cbn [first_occupation].
  destruct (includes "teacher" (toLowerCase d)) eqn:H1;
    [| destruct (includes "doctor" (toLowerCase d)) eqn:H2;
       [| destruct (includes "engineer" (toLowerCase d)) eqn:H3;
          [| destruct (includes "artist" (toLowerCase d)) eqn:H4;
             [| destruct (includes "lawyer" (toLowerCase d)) eqn:H5;
                [| destruct (includes "chef" (toLowerCase d)) eqn:H6;
                   [| destruct (includes "student" (toLowerCase d)) eqn:H7 ]]]]]].
  8: { intros word Hw. cbn [In] in Hw.
       repeat (destruct Hw as [<- | Hw]; [assumption |]). contradiction. }
  all: split; [cbn; auto 10 |]; split; [assumption |].
  all: intros before after Hsplit word Hin; cbn in Hsplit.
  all: repeat (destruct before as [| x before];
               [ contradiction Hin
               | first
                   [ discriminate Hsplit
                   | injection Hsplit as <- Hsplit;
                     destruct Hin as [<- | Hin];
                     [ first
                         [ assumption
                         | exfalso;
                           match type of Hsplit with
                           | _ = (_ ++ ?w :: _)%list =>
                               assert (Habs : In w (before ++ w :: after)%list)
                                 by apply in_elt;
                               rewrite <- Hsplit in Habs; cbn in Habs;
                               intuition discriminate
                           end ]
                     |] ] ]).
Qed.

(** ** The progress display *)

Import PerformanceSynthesizerUI.

(** X14: while a synthesis is under way the five steps of the display, in
    order, read "complete" for every step before the current phase,
    "active" for the current one and "pending" for every step after it;
    before it starts all five read "pending". *)
Theorem phase_statuses_follow_the_order :
  forall phase,
    exists position : nat,
      (phase = PIdle -> map (getPhaseStatus phase) phases = repeat "pending" 5)
      /\ (phase <> PIdle ->
            indexOf (phase_name phase) phases = Z.of_nat position
            /\ map (getPhaseStatus phase) phases
               = (repeat "complete" position ++ ["active"]
                  ++ repeat "pending" (4 - position))%list).
Proof.
  intros phase.
  destruct phase;
    [ exists 0%nat | exists 0%nat | exists 1%nat | exists 2%nat | exists 3%nat | exists 4%nat ];
    split; intros H; try reflexivity; try discriminate H; try contradiction;
    split; reflexivity.
Qed.

(** X15: a step name the display does not know is reported "complete" as
    soon as a synthesis is under way (its index -1 is below every phase),
    and "pending" before. *)
Theorem unknown_step_reads_complete :
  forall phase targetPhase,
    ~ In targetPhase phases ->
    indexOf targetPhase phases = (-1)%Z
    /\ getPhaseStatus phase targetPhase
       = if String.eqb (phase_name phase) "idle" then "pending" else "complete".
Proof.
  intros phase target Hunknown.
  assert (Hneq : forall s, In s phases -> String.eqb s target = false).
  { intros s Hs. apply String.eqb_neq. intros ->. contradiction. }
  assert (Hidx : indexOf target phases = (-1)%Z).
  { unfold phases in *. cbn [indexOf].
    rewrite !Hneq by (cbn; auto 10). reflexivity. }
  split; [exact Hidx |].
  unfold getPhaseStatus. rewrite Hidx.
  destruct phase; cbn [phase_name]; try reflexivity;
    rewrite Hneq by (cbn; auto 10); reflexivity.
Qed.

(** X15, at the step name "render" during the audio phase. *)
Lemma unknown_step_reads_complete_witness :
  ~ In "render" phases
  /\ indexOf "render" phases = (-1)%Z
  /\ getPhaseStatus PAudio "render" = "complete".
Proof.
  assert (H : ~ In "render" phases) by (cbn; intuition discriminate).
  split; [exact H |].
  apply (unknown_step_reads_complete PAudio "render" H).
Defined.

(** ** Stages of the synthesis pipeline *)



(** X17: when the three generators and the engine succeed, the run
    resolves, and its result does not depend on what the engine returned:
    it carries the three generator outputs themselves, the fixed id
    "temp-id", the scores 0.93 and 0.91 and the cost 0.05; three clock
    readings are taken after the engine, the second of which is the
    timestamp and the third the generation time, and nothing is logged. *)
Theorem successful_run_ignores_the_engine_output :
  forall this instructions w v w1 a w2 n w3 s w4,
    vg_generateVisualPerformance (visualGenerator this) instructions w = (Ok v, w1) ->
    ag_generateAudioPerformance (audioGenerator this) instructions w1 = (Ok a, w2) ->
    ng_generateAnimationPerformance (animationGenerator this) instructions w2 = (Ok n, w3) ->
    se_synchronizeOutputs (synchronizationEngine this) v a n w3 = (Ok s, w4) ->
    synthesizePerformance this instructions w
    = (Ok {| sp_characterId := "temp-id";
             sp_timestamp := now w4 (S (reads w4));
             sp_visual := v;
             sp_audio := a;
             sp_animation := n;
             sp_metadata :=
               {| generationTime := now w4 (S (S (reads w4)));
                  modelUsed := "multimodal-v1";
                  qualityScore := 0.93;
                  consistencyScore := 0.91;
                  cost := 0.05;
                  md_version := "1.0.0" |} |},
       {| now := now w4; reads := S (S (S (reads w4))); console := console w4 |}).
Proof.
  intros this instructions w v w1 a w2 n w3 s w4 Hv Ha Hn Hs.
  unfold synthesizePerformance, try_catch, synthesize_body, promise_all3, bind, settle,
    generateVisualPerformance, generateAudioPerformance, generateAnimationPerformance.
  rewrite Hv, Ha, Hn. cbn. rewrite Hs. reflexivity.
Qed.

(** X17, with an engine that puts the audio output in the place of the
    visual one: the result still carries the visual generator's output. *)
Lemma successful_run_ignores_the_engine_output_witness :
  exists v a n p w',
    VisualGeneratorImpl.generateVisualPerformance (sample_instructions "char-1" 50) world0
    = (Ok v, world0)
    /\ se_synchronizeOutputs swapping_engine v a n world0
       = SynchronizationEngineImpl.synchronizeOutputs a a n world0
    /\ synthesizePerformance
         {| characterModel := initializeCharacterModel sample_ontology;
            visualGenerator := VisualGeneratorImpl.make;
            audioGenerator := AudioGeneratorImpl.make;
            animationGenerator := AnimationGeneratorImpl.make;
            synchronizationEngine := swapping_engine;
            qualityAssurance := empty_obj;
            consistencyEngine := empty_obj |}
         (sample_instructions "char-1" 50) world0
       = (Ok p, w')
    /\ sp_visual p = v
    /\ sp_audio p = a
    /\ sp_animation p = n.
Proof.
  do 5 eexists. split; [reflexivity |]. split; [reflexivity |]. split.
  - eapply successful_run_ignores_the_engine_output; reflexivity.
  - repeat split.
Defined.

(** X18: when the generators succeed and the engine fails, the validators
    are not run (no clock reading is taken), the engine's failure is
    logged once and the run rejects with it wrapped in
    "Performance synthesis failed: ...". *)
Theorem engine_failure_is_reported :
  forall this instructions w v w1 a w2 n w3 e w4,
    vg_generateVisualPerformance (visualGenerator this) instructions w = (Ok v, w1) ->
    ag_generateAudioPerformance (audioGenerator this) instructions w1 = (Ok a, w2) ->
    ng_generateAnimationPerformance (animationGenerator this) instructions w2 = (Ok n, w3) ->
    se_synchronizeOutputs (synchronizationEngine this) v a n w3 = (Throw e, w4) ->
    synthesizePerformance this instructions w
    = (Throw (Error ("Performance synthesis failed: " ++ toString e)),
       {| now := now w4; reads := reads w4;
          console := ("Error synthesizing performance:", e) :: console w4 |}).
Proof.
  intros this instructions w v w1 a w2 n w3 e w4 Hv Ha Hn Hs.
  unfold synthesizePerformance, try_catch, synthesize_body, promise_all3, bind, settle,
    generateVisualPerformance, generateAudioPerformance, generateAnimationPerformance.
  rewrite Hv, Ha, Hn. cbn. rewrite Hs. reflexivity.
Qed.

(** X18, with an engine that rejects every input as degenerate. *)
Lemma engine_failure_is_reported_witness :
  synthesizePerformance
    {| characterModel := initializeCharacterModel sample_ontology;
       visualGenerator := VisualGeneratorImpl.make;
       audioGenerator := AudioGeneratorImpl.make;
       animationGenerator := AnimationGeneratorImpl.make;
       synchronizationEngine :=
         {| se_synchronizeOutputs := fun _ _ _ => throw DegenerateOutput;
            se_calculateSyncPoints := SynchronizationEngineImpl.calculateSyncPoints |};
       qualityAssurance := empty_obj;
       consistencyEngine := empty_obj |}
    (sample_instructions "char-1" 50) world0
  = (Throw (Error ("Performance synthesis failed: " ++ toString DegenerateOutput)),
     {| now := now world0; reads := reads world0;
        console := ("Error synthesizing performance:", DegenerateOutput)
                   :: console world0 |}).
Proof.
  eapply engine_failure_is_reported; reflexivity.
Defined.

(** ** Reports and base voice *)

(** X19: the final performance is assembled from the scorecards without
    altering them: both reports embed their scorecard unchanged, the
    overall score of each report and the score in the metadata are the
    aggregate of that scorecard, whatever the scorecards are; one clock
    reading is taken. *)
Theorem final_performance_reports_the_scorecards :
  forall synchronized qualityCheck consistencyCheck w,
    exists final,
      generateFinalPerformance synchronized qualityCheck consistencyCheck w
      = (Ok final, {| now := now w; reads := S (reads w); console := console w |})
      /\ qr_metrics (quality_report final) = qualityCheck
      /\ cr_metrics (consistency_report final) = consistencyCheck
      /\ qr_overall_score (quality_report final)
         = overall_quality (qr_metrics (quality_report final))
      /\ cr_overall_score (consistency_report final)
         = overall_consistency (cr_metrics (consistency_report final))
      /\ quality_score (fp_metadata final) = qr_overall_score (quality_report final)
      /\ consistency_score (fp_metadata final)
         = cr_overall_score (consistency_report final)
      /\ generation_time (fp_metadata final) = now w (reads w).
Proof.
  intros synchronized qualityCheck consistencyCheck w.
  eexists. split; [reflexivity |]. repeat split.
Qed.

(** X20: the base voice never has an empty timbre or accent. An ontology
    without voice identity, or with an absent or empty voice type or
    accent, gets "neutral"; a non-empty one is kept; absent speech patterns
    become the empty list. *)
Theorem base_voice_is_never_blank :
  forall ontology,
    timbre (extractBaseVoice ontology) <> ""
    /\ cv_accent (extractBaseVoice ontology) <> ""
    /\ (voiceIdentity ontology = None ->
        timbre (extractBaseVoice ontology) = "neutral"
        /\ cv_accent (extractBaseVoice ontology) = "neutral"
        /\ speech_patterns (extractBaseVoice ontology) = [])
    /\ (forall identity c s,
          voiceIdentity ontology = Some identity ->
          voiceType identity = Some (String c s) ->
          timbre (extractBaseVoice ontology) = String c s).
Proof.
  intros ontology. unfold extractBaseVoice. cbn [timbre cv_accent speech_patterns].
  destruct (voiceIdentity ontology) as [identity |]; cbn [opt_chain].
  - destruct (voiceType identity) as [[| c s] |] eqn:Hvoice,
      (accent identity) as [[| c' s'] |] eqn:Haccent;
      cbn [or_string]; repeat split; intros; try discriminate; try congruence.
  - repeat split; intros; try discriminate; try congruence.
Qed.

(** ** Word searches of the language processor *)

Example word_runs_of_sentence :
  word_runs "She met his step-brother, a_b2!" = ["She"; "met"; "his"; "step"; "brother"; "a_b2"].
Proof. reflexivity. Qed.

Example woman_is_not_man : extractGender "A brave woman." = Some "Female".
Proof. reflexivity. Qed.

Example male_word_wins : extractGender "She admires HIS work" = Some "Male".
Proof. reflexivity. Qed.







